(** * generate.py: the seed-board generator of the Game of Life

    A shallow embedding of [src/generate.py] and the properties of its
    [main] function.  The script reads [sys.argv], asks numpy for a random
    grid of ['*'] and [' '] cells, joins it into one string and writes it to
    [./life.txt].

    The embedding is a state-and-exception monad over an explicit [World]
    (argument vector, numpy's global generator and the memory it can get,
    standard streams, a file system with a table of open file objects).
    A character is a code point below 256; a 64-bit platform is assumed
    for numpy's index type. *)

From Stdlib Require Import ZArith NArith QArith Qabs String Ascii List.
From stdpp Require Import gmap strings list fin_maps.

Local Open Scope string_scope.
Local Open Scope Z_scope.
Local Open Scope stdpp_scope.

(** ** Python values and exceptions *)

(** [sys.argv] is an ordinary module attribute holding a list of objects.
    The interpreter fills it with strings; a caller that imports the module
    may store anything before calling [main].  Only the two kinds of object
    the code can tell apart are modelled. *)
Inductive pyval : Type :=
  | PyStr (s : string)
  | PyInt (n : Z).

Definition is_str (v : pyval) : bool :=
  match v with PyStr _ => true | PyInt _ => false end.

(** An exception is identified by its class; [SystemExit] carries the
    requested status. *)
Inductive exn : Type :=
  | Exception (cls : string)
  | SystemExit (code : Z).

Definition ValueError : exn := Exception "ValueError".
Definition TypeError : exn := Exception "TypeError".
Definition IndexError : exn := Exception "IndexError".
Definition OSError : exn := Exception "OSError".
Definition OverflowError : exn := Exception "OverflowError".
Definition MemoryError : exn := Exception "MemoryError".

Inductive result (A : Type) : Type :=
  | Return (a : A)
  | Raise (e : exn).
Arguments Return {A} a.
Arguments Raise {A} e.

(** ** The world the script runs in *)

(** How the allocations for a grid and its text go: all succeed; the array
    of samples cannot be had, so nothing is drawn; or the samples are drawn
    and a later array or string cannot be had. *)
Inductive alloc : Type :=
  | Fits
  | FailsBeforeDraw
  | FailsAfterDraw.

(** An open text file: its path and the text written to it that has not
    reached the device yet. *)
Record openfile : Type := mkOpen {
  of_path : string;
  of_pending : string
}.

Record World : Type := mkWorld {
  sys_argv : list pyval;          (* sys.argv *)
  rng_seq : nat -> N;             (* what numpy's global generator will emit *)
  rng_pos : nat;                  (* how much of it has been consumed *)
  np_memory : nat -> nat -> alloc; (* the fate of a grid of that many rows and columns *)
  stdout : list string;           (* lines printed so far *)
  stderr : list string;           (* lines reported by the interpreter *)
  files : gmap string string;     (* path |-> contents *)
  fds : gmap nat openfile;        (* open descriptor |-> file object *)
  denied : gset string;           (* paths that cannot be opened for writing *)
  disk_free : nat;                (* characters the device still accepts *)
  buffer_size : nat               (* what a file object holds back *)
}.

Definition set_argv (a : list pyval) (w : World) : World :=
  mkWorld a (rng_seq w) (rng_pos w) (np_memory w) (stdout w) (stderr w) (files w)
          (fds w) (denied w) (disk_free w) (buffer_size w).
Definition set_rng_pos (n : nat) (w : World) : World :=
  mkWorld (sys_argv w) (rng_seq w) n (np_memory w) (stdout w) (stderr w) (files w)
          (fds w) (denied w) (disk_free w) (buffer_size w).
Definition set_stdout (o : list string) (w : World) : World :=
  mkWorld (sys_argv w) (rng_seq w) (rng_pos w) (np_memory w) o (stderr w) (files w)
          (fds w) (denied w) (disk_free w) (buffer_size w).
Definition set_stderr (o : list string) (w : World) : World :=
  mkWorld (sys_argv w) (rng_seq w) (rng_pos w) (np_memory w) (stdout w) o (files w)
          (fds w) (denied w) (disk_free w) (buffer_size w).
Definition set_files (f : gmap string string) (w : World) : World :=
  mkWorld (sys_argv w) (rng_seq w) (rng_pos w) (np_memory w) (stdout w) (stderr w) f
          (fds w) (denied w) (disk_free w) (buffer_size w).
Definition set_fds (t : gmap nat openfile) (w : World) : World :=
  mkWorld (sys_argv w) (rng_seq w) (rng_pos w) (np_memory w) (stdout w) (stderr w)
          (files w) t (denied w) (disk_free w) (buffer_size w).
Definition set_disk_free (n : nat) (w : World) : World :=
  mkWorld (sys_argv w) (rng_seq w) (rng_pos w) (np_memory w) (stdout w) (stderr w)
          (files w) (fds w) (denied w) n (buffer_size w).

(** ** The monad of Python statements *)

Definition M (A : Type) : Type := World -> result A * World.

#[global] Instance M_ret : MRet M := fun A a w => (Return a, w).
#[global] Instance M_bind : MBind M := fun A B k m w =>
  match m w with
  | (Return a, w') => k a w'
  | (Raise e, w') => (Raise e, w')
  end.

Definition raise {A : Type} (e : exn) : M A := fun w => (Raise e, w).
Definition gets {A : Type} (f : World -> A) : M A := fun w => (Return (f w), w).
Definition modify (f : World -> World) : M unit := fun w => (Return tt, f w).

(** A computation that does not touch the world. *)
Definition lift {A : Type} (r : result A) : M A := fun w => (r, w).

(** [try: body finally: cleanup]: the cleanup runs on both exits; when it
    raises, its exception is the one that propagates, otherwise the outcome
    of the body is kept. *)
Definition finally {A : Type} (body : M A) (cleanup : M unit) : M A :=
  fun w =>
    let '(r, w1) := body w in
    match cleanup w1 with
    | (Return _, w2) => (r, w2)
    | (Raise e, w2) => (Raise e, w2)
    end.

(** ** Builtins *)

(** [print(s)] *)
Definition print (s : string) : M unit :=
  modify (fun w => set_stdout (stdout w ++ [s]) w).

(** [exit(code)] raises [SystemExit]. *)
Definition py_exit {A : Type} (code : Z) : M A := raise (SystemExit code).

(** [a, b = l]: a list of any other length raises [ValueError]. *)
Definition unpack2 (l : list pyval) : M (pyval * pyval) :=
  match l with
  | [a; b] => mret (a, b)
  | _ => raise ValueError
  end.

(** [sep.join(parts)] *)
Fixpoint join (sep : string) (parts : list string) : string :=
  match parts with
  | [] => ""
  | [x] => x
  | x :: rest => x ++ sep ++ join sep rest
  end.

(** [s[:n]] and [s[n:]] *)
Fixpoint string_take (n : nat) (s : string) : string :=
  match n, s with
  | S n', String a s' => String a (string_take n' s')
  | _, _ => ""
  end.

Fixpoint string_drop (n : nat) (s : string) : string :=
  match n, s with
  | S n', String _ s' => string_drop n' s'
  | _, _ => s
  end.

(** *** Files *)

(** [open(path, 'w')]: the file is created or truncated when it is opened,
    and the lowest free descriptor is handed out with nothing pending. *)
Definition py_open_w (path : string) : M nat := fun w =>
  if decide (path ∈ denied w) then (Raise OSError, w)
  else
    let fd := fresh (dom (fds w)) in
    (Return fd,
     set_fds (<[fd := mkOpen path ""]> (fds w)) (set_files (<[path := ""]> (files w)) w)).

(** Pending text goes to the device: all of it when there is room,
    otherwise the part that fits, and the rest is refused. *)
Definition device_write (path text : string) (w : World) : bool * World :=
  let old := default "" (files w !! path) in
  if (String.length text <=? disk_free w)%nat
  then (true,
        set_disk_free (disk_free w - String.length text)
          (set_files (<[path := old ++ text]> (files w)) w))
  else (false,
        set_disk_free 0
          (set_files (<[path := old ++ string_take (disk_free w) text]> (files w)) w)).

(** [file.write(s)]: the text joins what is pending; it is held back while
    it fits the buffer and goes to the device when it does not, where a
    refusal raises [OSError] and leaves the refused part pending.  The
    call returns the number of characters taken. *)
Definition file_write (fd : nat) (s : string) : M nat := fun w =>
  match fds w !! fd with
  | None => (Raise ValueError, w)
  | Some f =>
      let pending := of_pending f ++ s in
      if (String.length pending <=? buffer_size w)%nat
      then (Return (String.length s),
            set_fds (<[fd := mkOpen (of_path f) pending]> (fds w)) w)
      else
        match device_write (of_path f) pending w with
        | (true, w') =>
            (Return (String.length s),
             set_fds (<[fd := mkOpen (of_path f) ""]> (fds w')) w')
        | (false, w') =>
            (Raise OSError,
             set_fds (<[fd := mkOpen (of_path f) (string_drop (disk_free w) pending)]>
                        (fds w')) w')
        end
  end.

(** [file.close()]: what is pending goes to the device, and the descriptor
    is released whether or not the device took it; a refusal raises
    [OSError]. *)
Definition file_close (fd : nat) : M unit := fun w =>
  match fds w !! fd with
  | None => (Return tt, w)
  | Some f =>
      match device_write (of_path f) (of_pending f) w with
      | (true, w') => (Return tt, set_fds (delete fd (fds w')) w')
      | (false, w') => (Raise OSError, set_fds (delete fd (fds w')) w')
      end
  end.

(** [with open(path, 'w') as file: body]: the file object's [__exit__]
    closes the file on every exit from the body. *)
Definition with_open_w {A : Type} (path : string) (body : nat -> M A) : M A :=
  file ← py_open_w path;
  finally (body file) (file_close file).

(** ** Python's [int] on a string *)

(** The characters [int] skips around a literal. *)
Definition is_space (c : ascii) : bool :=
  let n := nat_of_ascii c in
  ((9 <=? n) && (n <=? 13) || (n =? 32) || (n =? 133) || (n =? 160))%nat.

Definition is_digit (c : ascii) : bool :=
  (48 <=? nat_of_ascii c)%nat && (nat_of_ascii c <=? 57)%nat.

Definition underscore : ascii := "_"%char.

Fixpoint skip_spaces (s : string) : string :=
  match s with
  | String c s' => if is_space c then skip_spaces s' else s
  | "" => ""
  end.

(** Digits with single underscores between them: the value read, the
    number of digits, and what follows them. *)
Fixpoint scan_digits (acc : Z) (count : nat) (after_underscore : bool) (s : string)
  : option (Z * nat * string) :=
  match s with
  | String c s' =>
      if is_digit c
      then scan_digits (10 * acc + Z.of_nat (nat_of_ascii c - 48)) (S count) false s'
      else if Ascii.eqb c underscore
           then (if after_underscore then None else scan_digits acc count true s')
           else (if after_underscore then None else Some (acc, count, s))
  | "" => if after_underscore then None else Some (acc, count, "")
  end.

(** The longest run of digits [int] converts. *)
Definition int_max_str_digits : nat := 4300.

(** [int(s)]: spaces, an optional sign, digits, spaces; [None] stands for
    the [ValueError] of an invalid literal. *)
Definition py_int (s : string) : option Z :=
  let s1 := skip_spaces s in
  let '(negative, s2) :=
    match s1 with
    | String "+" t => (false, t)
    | String "-" t => (true, t)
    | _ => (false, s1)
    end in
  match s2 with
  | String "_" _ => None
  | _ =>
      match scan_digits 0 0 false s2 with
      | Some (v, count, rest) =>
          if ((count =? 0) || (int_max_str_digits <? count))%nat then None
          else
            match skip_spaces rest with
            | "" => Some (if negative then - v else v)
            | _ => None
            end
      | None => None
      end
  end.

(** ** numpy.random.choice *)

(** A string stored in a numpy array loses its trailing NUL characters. *)
Fixpoint strip_nul (s : string) : string :=
  match s with
  | "" => ""
  | String c s' =>
      match strip_nul s', nat_of_ascii c with
      | "", O => ""
      | t, _ => String c t
      end
  end.

(** The integer a string holds for numpy, if any. *)
Definition literal (s : string) : option Z := py_int (strip_nul s).

Definition in_C_long (n : Z) : bool := (- 2 ^ 63 <=? n) && (n <? 2 ^ 63).

(** An entry of a shape that contains a string, as the integer product of
    the shape converts it: the entries are then all text, each is parsed by
    [int] and must fit a C long. *)
Definition as_index (v : pyval) : result Z :=
  match v with
  | PyInt n => if in_C_long n then Return n else Raise OverflowError
  | PyStr s =>
      match literal s with
      | None => Raise ValueError
      | Some n => if in_C_long n then Return n else Raise OverflowError
      end
  end.

(** An array of doubles over the non-zero dimensions must not exceed the
    largest size. *)
Definition too_big (r c : Z) : bool := 2 ^ 63 <=? 8 * Z.max r 1 * Z.max c 1.

(** What numpy makes of [size=(rows, cols)] before it allocates anything.
    Two integers: outside 64 bits they overflow the conversion, from
    [2^63] on they exceed the largest dimension, and negative or too large
    ones are refused.  With a string among them: the conversion of each
    entry in turn, and then the [TypeError] of a shape that is not made of
    integers. *)
Definition np_shape (size : pyval * pyval) : result (Z * Z) :=
  match size with
  | (PyInt r, PyInt c) =>
      if (r <? - 2 ^ 63) || (2 ^ 64 <=? r) || (c <? - 2 ^ 63) || (2 ^ 64 <=? c)
      then Raise OverflowError
      else if (2 ^ 63 <=? r) || (2 ^ 63 <=? c) then Raise ValueError
      else if (r <? 0) || (c <? 0) || too_big r c then Raise ValueError
      else Return (r, c)
  | (rows, cols) =>
      match as_index rows with
      | Raise e => Raise e
      | Return _ =>
          match as_index cols with
          | Raise e => Raise e
          | Return _ => Raise TypeError
          end
      end
  end.

(** The fate of the allocations for [r] rows of [c] cells; a grid without
    rows needs none. *)
Definition memory (w : World) (r c : Z) : alloc :=
  if r =? 0 then Fits else np_memory w (Z.to_nat r) (Z.to_nat c).

(** The call in [main] goes through numpy's legacy global generator.  Its
    double-precision samples and probabilities are read as the rationals
    they denote: a sample is [k / 2^53] for the 53-bit integer [k] the
    generator emits next, so it always lies in the interval [0, 1). *)
Definition random_sample : M Q := fun w =>
  let k := (rng_seq w (rng_pos w) mod 2 ^ 53)%N in
  (Return (Z.of_N k # 2 ^ 53), set_rng_pos (S (rng_pos w)) w).

(** [p.cumsum()] *)
Fixpoint cumsum_from (acc : Q) (p : list Q) : list Q :=
  match p with
  | [] => []
  | x :: rest => (acc + x)%Q :: cumsum_from (acc + x)%Q rest
  end.
Definition cumsum (p : list Q) : list Q := cumsum_from 0%Q p.

(** [cdf /= cdf[-1]] *)
Definition normalise (cdf : list Q) : list Q :=
  map (fun c => (c / List.last cdf 1%Q)%Q) cdf.

(** [cdf.searchsorted(u, side='right')] on a sorted [cdf]: the number of
    entries that are at most [u]. *)
Definition searchsorted_right (cdf : list Q) (u : Q) : nat :=
  length (List.filter (fun c => Qle_bool c u) cdf).

(** The tolerance of the check that [p] sums to one, [sqrt(eps)]. *)
Definition atol : Q := 1 # 2 ^ 26.

(** One cell: a uniform sample, its rank in [cdf], the element at that rank. *)
Definition choose (a : list string) (cdf : list Q) : M string :=
  u ← random_sample;
  match a !! searchsorted_right cdf u with
  | Some x => mret x
  | None => raise IndexError
  end.

(** [n] successive runs of [m], results in order. *)
Fixpoint repeatM {A : Type} (n : nat) (m : M A) : M (list A) :=
  match n with
  | O => mret []
  | S n' => x ← m; xs ← repeatM n' m; mret (x :: xs)
  end.

(** [np.random.choice(a, size=(rows, cols), p=p)] for a one-dimensional [a],
    sampling with replacement.  The checks come in numpy's order: first the
    population and the probabilities, then the shape, then the memory for
    the samples; the samples are drawn in row-major order, and what is
    built from them needs memory again. *)
Definition np_random_choice (a : list string) (size : pyval * pyval) (p : list Q)
  : M (list (list string)) :=
  if negb (length p =? length a)%nat then raise ValueError
  else if existsb (fun x => negb (Qle_bool 0 x)) p then raise ValueError
  else if negb (Qle_bool (Qabs (fold_right Qplus 0%Q p - 1)) atol) then raise ValueError
  else
    '(r, c) ← lift (np_shape size);
    state ← gets (fun w => memory w r c);
    match state with
    | FailsBeforeDraw => raise MemoryError
    | _ =>
        let cdf := normalise (cumsum p) in
        grid ← repeatM (Z.to_nat r) (repeatM (Z.to_nat c) (choose a cdf));
        match state with
        | FailsAfterDraw => raise MemoryError
        | _ => mret grid
        end
    end.

(** ** The script *)

(** The two cell states, as the module docstring names them. *)
Definition ALIVE : string := "*".
Definition DEAD : string := " ".

Definition nl : ascii := ascii_of_nat 10.
Definition newline : string := String nl "".

(** Line 31: ['\n'.join(''.join(row) for row in grid)]. *)
Definition grid_str (grid : list (list string)) : string :=
  join newline (map (join "") grid).

Definition file_path : string := "./life.txt".

Definition usage : string := "Usage: ./generate [ROWS] [COLUMNS]".

(** Lines 21-34. *)
Definition main : M unit :=
  argv ← gets sys_argv;
  (if (4 <? length argv)%nat then print usage;; py_exit 1 else mret tt);;
  '(rows, cols) ← unpack2 (drop 1 argv);
  grid ← np_random_choice [ALIVE; DEAD] (rows, cols) [5 # 100; 95 # 100]%Q;
  with_open_w file_path (fun file => file_write file (grid_str grid);; mret tt).

(** Lines 36-37 under the interpreter: the status is 0 when [main] returns,
    the requested one on [SystemExit], and 1 after the traceback of any
    other exception. *)
Definition traceback (cls : string) : string :=
  "Traceback (most recent call last): " ++ cls.

Definition run_script (w : World) : Z * World :=
  match main w with
  | (Return _, w') => (0, w')
  | (Raise (SystemExit code), w') => (code, w')
  | (Raise (Exception cls), w') => (1, set_stderr (stderr w' ++ [traceback cls]) w')
  end.

(** ** Vocabulary of the statements *)

(** *** Grids and samples *)

(** A grid of the requested shape over the two cell states. *)
Definition well_formed (rows cols : nat) (grid : list (list string)) : Prop :=
  length grid = rows ∧
  Forall (fun row => length row = cols ∧ Forall (fun c => c = ALIVE ∨ c = DEAD) row) grid.

(** The cell the next sample selects: ['*'] when the sample is below 0.05,
    [' '] otherwise. *)
Definition next_cell (w : World) : string :=
  if (20 * (rng_seq w (rng_pos w) mod 2 ^ 53) <? 2 ^ 53)%N then ALIVE else DEAD.

(** The grid in closed form: cell [(i, j)] is decided by the sample at
    position [start + i * cols + j] of the generator. *)
Definition cell_at (w : World) (k : nat) : string := next_cell (set_rng_pos k w).

Definition sample_row (w : World) (start cols : nat) : list string :=
  map (cell_at w) (seq start cols).

Definition sample_grid (w : World) (start rows cols : nat) : list (list string) :=
  map (fun i => sample_row w (start + i * cols) cols) (seq 0 rows).

(** The text [main] writes when [sys.argv] holds the integers [r] and [c]:
    the serialised grid of the next [r * c] samples. *)
Definition board (w : World) (r c : Z) : string :=
  grid_str (sample_grid w (rng_pos w) (Z.to_nat r) (Z.to_nat c)).

(** The character at column [j] of line [i] of that text. *)
Definition board_char (w : World) (c : Z) (i j : nat) : ascii :=
  if (20 * (rng_seq w (rng_pos w + i * Z.to_nat c + j) mod 2 ^ 53) <? 2 ^ 53)%N
  then "*"%char else " "%char.

(** Two integers numpy takes as the shape of a grid: neither negative, and
    the doubles of the non-zero dimensions within the largest array. *)
Definition accepted (r c : Z) : Prop :=
  0 ≤ r ∧ 0 ≤ c ∧ 8 * Z.max r 1 * Z.max c 1 < 2 ^ 63.

(** The number of cells of that grid. *)
Definition cells (r c : Z) : nat := (Z.to_nat r * Z.to_nat c)%nat.

(** *** Reading the text back *)

(** [s.split(sep)] for a one-character separator: how a reader of the file
    recovers the rows. *)
Fixpoint split (sep : ascii) (s : string) : list string :=
  match s with
  | "" => [""]
  | String a s' =>
      if Ascii.eqb a sep then "" :: split sep s'
      else
        match split sep s' with
        | line :: rest => String a line :: rest
        | [] => [String a ""]
        end
  end.

(** [s.count(c)] *)
Fixpoint count_char (c : ascii) (s : string) : nat :=
  match s with
  | "" => 0
  | String a s' => (if Ascii.eqb a c then 1 else 0) + count_char c s'
  end.

(** The character a cell contributes to its row. *)
Definition cell_char (cell : string) : ascii :=
  match cell with
  | String a _ => a
  | "" => " "%char
  end.

(** The cells of one line of the file, as a reader takes them apart. *)
Fixpoint chars (s : string) : list string :=
  match s with
  | "" => []
  | String a s' => String a "" :: chars s'
  end.

(** [text.split('\n')] cut into cells: the grid a reader sees. *)
Definition read_grid (text : string) : list (list string) :=
  map chars (split nl text).

(** *** Invocations *)

(** A process started from a shell: every argument is a string. *)
Definition cmdline (prog : string) (args : list string) : list pyval :=
  PyStr prog :: map PyStr args.

(** An argument made of printable ASCII characters, tabs and line
    breaks. *)
Definition plain_char (c : ascii) : bool :=
  let n := nat_of_ascii c in
  ((9 <=? n) && (n <=? 13) || (32 <=? n) && (n <=? 126))%nat.

Fixpoint plain (s : string) : bool :=
  match s with
  | "" => true
  | String c s' => plain_char c && plain s'
  end.

(** More values after the program name than the two dimensions. *)
Definition too_many (w : World) : Prop := (2 < length (drop 1 (sys_argv w)))%nat.

(** The exception that ends the conversion of two strings to a shape: that
    of the first string that is no integer literal ([ValueError]) or holds
    an integer outside the C long range ([OverflowError]), and otherwise
    the [TypeError] of strings where integers are required. *)
Definition conversion_error (a b : string) : exn :=
  match literal a with
  | None => ValueError
  | Some n =>
      if in_C_long n
      then match literal b with
           | None => ValueError
           | Some m => if in_C_long m then TypeError else OverflowError
           end
      else OverflowError
  end.

(** The number of samples a run draws: one per cell when [sys.argv] holds
    two integers numpy accepts as a shape and the array of samples can be
    had, none otherwise. *)
Definition samples_drawn (w : World) : nat :=
  match sys_argv w with
  | [_; PyInt r; PyInt c] =>
      match np_shape (PyInt r, PyInt c), memory w r c with
      | Return _, (Fits | FailsAfterDraw) => cells r c
      | _, _ => 0%nat
      end
  | _ => 0%nat
  end.

(** Every way [main] can end. *)
Inductive main_outcome (w : World) : result unit * World → Prop :=
  | ends_usage :
      (4 < length (sys_argv w))%nat →
      main_outcome w (Raise (SystemExit 1), set_stdout (stdout w ++ [usage]) w)
  | ends_unpack :
      (length (sys_argv w) ≤ 4)%nat → length (sys_argv w) ≠ 3%nat →
      main_outcome w (Raise ValueError, w)
  | ends_shape (prog rows cols : pyval) (e : exn) :
      sys_argv w = [prog; rows; cols] →
      np_shape (rows, cols) = Raise e →
      e = ValueError ∨ e = TypeError ∨ e = OverflowError →
      main_outcome w (Raise e, w)
  | ends_memory_before (prog : pyval) (r c : Z) :
      sys_argv w = [prog; PyInt r; PyInt c] → accepted r c →
      memory w r c = FailsBeforeDraw →
      main_outcome w (Raise MemoryError, w)
  | ends_memory_after (prog : pyval) (r c : Z) :
      sys_argv w = [prog; PyInt r; PyInt c] → accepted r c →
      memory w r c = FailsAfterDraw →
      main_outcome w (Raise MemoryError, set_rng_pos (rng_pos w + cells r c) w)
  | ends_in_block (prog : pyval) (r c : Z) (grid : list (list string)) (w1 : World) :
      sys_argv w = [prog; PyInt r; PyInt c] → accepted r c →
      memory w r c = Fits →
      np_random_choice [ALIVE; DEAD] (PyInt r, PyInt c) [5 # 100; 95 # 100]%Q w
        = (Return grid, w1) →
      w1 = set_rng_pos (rng_pos w + cells r c) w →
      grid = sample_grid w (rng_pos w) (Z.to_nat r) (Z.to_nat c) →
      main_outcome w
        (with_open_w file_path (fun file => file_write file (grid_str grid);; mret tt) w1).

(** *** What the specification asks for, where the code has no counterpart *)

(** A dimension argument the specification calls valid: a decimal string
    that denotes a positive integer.  The script never examines its
    arguments this way. *)
Fixpoint decimal_value (acc : N) (s : string) : option N :=
  match s with
  | "" => Some acc
  | String c s' =>
      if is_digit c
      then decimal_value (10 * acc + N.of_nat (nat_of_ascii c - 48)) s'
      else None
  end.

Definition valid_dimension (s : string) : bool :=
  match s, decimal_value 0 s with
  | String _ _, Some n => (0 <? n)%N
  | _, _ => false
  end.

(** The exit-status rule as the specification words it: 0 on success, and
    1 exactly when too many arguments are supplied. *)
Definition spec_exit_status (w : World) : Prop :=
  ((∃ w', main w = (Return tt, w')) → (run_script w).1 = 0) ∧
  ((run_script w).1 = 1 ↔ too_many w).

(** The parse-error rule as the specification words it: an argument that
    is not a valid positive integer makes the program fail by the
    rejection of that argument when it is parsed, with a non-zero
    status. *)
Definition spec_parse_error (w : World) (rows cols : string) : Prop :=
  drop 1 (sys_argv w) = [PyStr rows; PyStr cols] →
  valid_dimension rows = false ∨ valid_dimension cols = false →
  (∃ e w', main w = (Raise e, w') ∧
           (as_index (PyStr rows) = Raise e ∨ as_index (PyStr cols) = Raise e)) ∧
  (run_script w).1 ≠ 0.

(** The two-argument rule as it was read off lines 26-29: whatever the two
    strings, the failure is a type error and no file is touched. *)
Definition spec_two_arguments (w : World) : Prop :=
  ∀ prog a b : string,
    sys_argv w = cmdline prog [a; b] →
    main w = (Raise TypeError, w).

(** *** Sample worlds *)

(** A generator whose first and fifth samples fall below 0.05. *)
Definition seq0 (n : nat) : N :=
  match n with
  | 0%nat | 4%nat => 0%N
  | _ => (2 ^ 52)%N
  end.

(** A machine with memory for every grid. *)
Definition roomy (rows cols : nat) : alloc := Fits.

(** A shell invocation in a directory that already holds two files. *)
Definition shell (args : list string) : World :=
  mkWorld (cmdline "./generate" args) seq0 0 roomy [] []
          {[ "./life.txt" := "old"; "notes.txt" := "keep" ]} ∅ ∅ 1000 4096.

(** [main] called with integers stored in [sys.argv]. *)
Definition patched (rows cols : Z) (free : nat) : World :=
  mkWorld [PyStr "./generate"; PyInt rows; PyInt cols] seq0 0 roomy [] []
          {[ "./life.txt" := "old"; "notes.txt" := "keep" ]} ∅ ∅ free 4096.

(** The same, in a directory where [./life.txt] cannot be opened. *)
Definition locked (rows cols : Z) : World :=
  mkWorld [PyStr "./generate"; PyInt rows; PyInt cols] seq0 0 roomy [] []
          {[ "./life.txt" := "old"; "notes.txt" := "keep" ]} ∅ {[ "./life.txt" ]} 1000 4096.

(** The same, with a file object that holds nothing back. *)
Definition unbuffered (rows cols : Z) (free : nat) : World :=
  mkWorld [PyStr "./generate"; PyInt rows; PyInt cols] seq0 0 roomy [] []
          {[ "./life.txt" := "old"; "notes.txt" := "keep" ]} ∅ ∅ free 0.

(** Closed goals about sample grids: shape and cell states by inspection. *)
Ltac by_cases :=
  repeat match goal with
         | |- well_formed _ _ _ => split
         | |- Forall _ _ => constructor
         | |- _ ∧ _ => split
         | |- _ ∨ _ => first [by left | by right]
         | |- _ = _ => reflexivity
         end.

(** * Properties *)

(** ** Strings *)

Lemma append_nil (t : string) : "" ++ t = t.
Proof. reflexivity. Qed.

Lemma append_cons (a : ascii) (s t : string) :
  String a s ++ t = String a (s ++ t).
Proof. reflexivity. Qed.

Lemma append_empty_r (s : string) : s ++ "" = s.
Proof.
  induction s as [| a s IH]; [done |]. by rewrite append_cons, IH.
Qed.

Lemma length_append (s t : string) :
  String.length (s ++ t) = (String.length s + String.length t)%nat.
Proof.
  induction s as [| a s IH]; [done |]. rewrite append_cons. cbn. by rewrite IH.
Qed.

Lemma count_char_append (c : ascii) (s t : string) :
  count_char c (s ++ t) = (count_char c s + count_char c t)%nat.
Proof.
  induction s as [| a s IH]; [done |].
  rewrite append_cons. cbn. rewrite IH. lia.
Qed.

Lemma join_cons (sep x y : string) (rest : list string) :
  join sep (x :: y :: rest) = x ++ sep ++ join sep (y :: rest).
Proof. reflexivity. Qed.

(** With the empty separator [join] is plain concatenation. *)
Lemma join_empty_cons (x : string) (rest : list string) :
  join "" (x :: rest) = x ++ join "" rest.
Proof. destruct rest; [by rewrite append_empty_r | done]. Qed.

(** Facts about one separator character. *)
Section Separator.

Variable sep : ascii.

Lemma split_no_sep (s : string) :
  count_char sep s = 0%nat → split sep s = [s].
Proof.
  induction s as [| a s IH]; cbn; [done |].
  destruct (Ascii.eqb a sep); [done |].
  intros H. by rewrite IH.
Qed.

Lemma split_append (s t : string) :
  count_char sep s = 0%nat →
  split sep (s ++ String sep t) = s :: split sep t.
Proof.
  induction s as [| a s IH].
  - intros _. rewrite append_nil. cbn. by rewrite Ascii.eqb_refl.
  - rewrite append_cons. cbn. destruct (Ascii.eqb a sep); [done |].
    intros H. by rewrite IH.
Qed.

(** Splitting undoes joining when no part contains the separator. *)
Lemma split_join (parts : list string) :
  parts ≠ [] →
  Forall (fun part => count_char sep part = 0%nat) parts →
  split sep (join (String sep "") parts) = parts.
Proof.
  induction parts as [| x rest IH]; intros Hne Hall; [done |].
  inversion Hall as [| ? ? Hx Hrest]; subst.
  destruct rest as [| y rest]; [by apply split_no_sep |].
  rewrite join_cons, append_cons, append_nil.
  rewrite split_append by done. by rewrite IH.
Qed.

Lemma count_char_join (parts : list string) :
  Forall (fun part => count_char sep part = 0%nat) parts →
  count_char sep (join (String sep "") parts) = (length parts - 1)%nat.
Proof.
  induction parts as [| x rest IH]; intros Hall; [done |].
  inversion Hall as [| ? ? Hx Hrest]; subst.
  destruct rest as [| y rest]; [by cbn |].
  rewrite join_cons, append_cons, append_nil, count_char_append, Hx.
  cbn [count_char]. rewrite Ascii.eqb_refl, IH by done. cbn. lia.
Qed.

End Separator.

Lemma length_join (sep : string) (n : nat) (parts : list string) :
  Forall (fun part => String.length part = n) parts →
  String.length (join sep parts)
  = (length parts * n + (length parts - 1) * String.length sep)%nat.
Proof.
  induction parts as [| x rest IH]; intros Hall; [done |].
  inversion Hall as [| ? ? Hx Hrest]; subst.
  destruct rest as [| y rest]; [change (join sep [x]) with x; cbn [length]; lia |].
  rewrite join_cons, !length_append, IH by done.
  cbn [length Nat.mul Nat.sub]. rewrite !Nat.sub_0_r. lia.
Qed.

(** ** The text of a grid *)

Lemma row_text (row : list string) :
  Forall (fun c => c = ALIVE ∨ c = DEAD) row →
  String.length (join "" row) = length row ∧
  count_char nl (join "" row) = 0%nat ∧
  ∀ (j : nat) (cell : string),
    row !! j = Some cell → String.get j (join "" row) = Some (cell_char cell).
Proof.
  induction 1 as [| c row Hc Hrow IH].
  - repeat split; done.
  - rewrite join_empty_cons. destruct IH as (Hlen & Hnl & Hget).
    repeat split.
    + rewrite length_append, Hlen. by destruct Hc; subst.
    + rewrite count_char_append, Hnl. by destruct Hc; subst.
    + intros [| j] cell Hj.
      * injection Hj as <-. by destruct Hc; subst.
      * cbn in Hj.
        destruct Hc; subst; unfold ALIVE, DEAD; rewrite append_cons; cbn; by apply Hget.
Qed.

Lemma rows_without_newline (cols : nat) (grid : list (list string)) :
  Forall (fun row => length row = cols ∧ Forall (fun c => c = ALIVE ∨ c = DEAD) row) grid →
  Forall (fun line => count_char nl line = 0%nat) (map (join "") grid).
Proof.
  intros Hall. apply Forall_map. eapply Forall_impl; [exact Hall |].
  intros row [_ Hcells]. by apply row_text.
Qed.

Lemma length_grid_str (rows cols : nat) (grid : list (list string)) :
  well_formed rows cols grid →
  String.length (grid_str grid) = (rows * cols + (rows - 1))%nat.
Proof.
  intros [Hrows Hall]. unfold grid_str.
  rewrite (length_join newline cols).
  - rewrite length_map, Hrows. cbn. lia.
  - apply Forall_map. eapply Forall_impl; [exact Hall |].
    intros row [Hlen Hcells]. cbn. destruct (row_text row Hcells) as [Hl _]. congruence.
Qed.

(** ** The grid constructor on the arguments of [main] *)

Lemma set_rng_pos_twice (n m : nat) (w : World) :
  set_rng_pos n (set_rng_pos m w) = set_rng_pos n w.
Proof. reflexivity. Qed.

Lemma rng_pos_set (n : nat) (w : World) : rng_pos (set_rng_pos n w) = n.
Proof. reflexivity. Qed.

Lemma set_rng_pos_id (w : World) : set_rng_pos (rng_pos w) w = w.
Proof. by destruct w. Qed.

Lemma next_cell_cases (w : World) : next_cell w = ALIVE ∨ next_cell w = DEAD.
Proof. unfold next_cell. destruct (_ <? _)%N; auto. Qed.

Lemma choose_next_cell (w : World) :
  choose [ALIVE; DEAD] (normalise (cumsum [5 # 100; 95 # 100]%Q)) w
  = (Return (next_cell w), set_rng_pos (S (rng_pos w)) w).
Proof.
  unfold choose, mbind, M_bind, random_sample, next_cell.
  set (k := (rng_seq w (rng_pos w) mod 2 ^ 53)%N).
  assert (Hk : (k < 2 ^ 53)%N) by (apply N.mod_lt; discriminate).
  let c := eval vm_compute in (normalise (cumsum [5 # 100; 95 # 100]%Q)) in
  change (normalise (cumsum [5 # 100; 95 # 100]%Q)) with c.
  unfold searchsorted_right, Qle_bool. cbn [List.filter Qnum Qden].
  change (2 ^ 53)%N with 9007199254740992%N in *.
  change (2 ^ 53)%positive with 9007199254740992%positive.
  destruct (N.ltb_spec (20 * k) 9007199254740992) as [Hlt | Hge].
  - rewrite (proj2 (Z.leb_gt _ _)) by lia.
    rewrite (proj2 (Z.leb_gt _ _)) by lia. reflexivity.
  - rewrite (proj2 (Z.leb_le _ _)) by lia.
    rewrite (proj2 (Z.leb_gt _ _)) by lia. reflexivity.
Qed.

Lemma repeatM_choose_row (n : nat) (w : World) :
  repeatM n (choose [ALIVE; DEAD] (normalise (cumsum [5 # 100; 95 # 100]%Q))) w
  = (Return (sample_row w (rng_pos w) n), set_rng_pos (rng_pos w + n) w).
Proof.
  revert w. induction n as [| n IH]; intros w.
  - cbn. unfold mret, M_ret. by rewrite Nat.add_0_r, set_rng_pos_id.
  - cbn [repeatM]. unfold mbind, M_bind at 1. rewrite choose_next_cell.
    unfold mbind, M_bind at 1. rewrite IH. unfold mret, M_ret.
    rewrite set_rng_pos_twice, rng_pos_set. f_equal.
    replace (S (rng_pos w) + n)%nat with (rng_pos w + S n)%nat by lia.
    reflexivity.
Qed.

Lemma sample_row_shift (w : World) (k start cols : nat) :
  sample_row (set_rng_pos k w) start cols = sample_row w start cols.
Proof. reflexivity. Qed.

Lemma repeatM_choose_grid (r c : nat) (w : World) :
  repeatM r (repeatM c (choose [ALIVE; DEAD] (normalise (cumsum [5 # 100; 95 # 100]%Q)))) w
  = (Return (sample_grid w (rng_pos w) r c), set_rng_pos (rng_pos w + r * c) w).
Proof.
  revert w. induction r as [| r IH]; intros w.
  - cbn. unfold mret, M_ret. by rewrite Nat.add_0_r, set_rng_pos_id.
  - cbn [repeatM]. unfold mbind, M_bind at 1. rewrite repeatM_choose_row.
    unfold mbind, M_bind at 1. rewrite IH. unfold mret, M_ret.
    rewrite set_rng_pos_twice, rng_pos_set. f_equal.
    + f_equal. unfold sample_grid. cbn [seq map].
      rewrite Nat.add_0_r. f_equal.
      rewrite <- List.seq_shift, List.map_map.
      apply List.map_ext. intros i. rewrite sample_row_shift. f_equal. lia.
    + f_equal. lia.
Qed.

Lemma sample_grid_well_formed (w : World) (start rows cols : nat) :
  well_formed rows cols (sample_grid w start rows cols).
Proof.
  split.
  - unfold sample_grid. by rewrite length_map, length_seq.
  - unfold sample_grid. apply Forall_map, Forall_forall. intros i _. cbn. split.
    + unfold sample_row. by rewrite length_map, length_seq.
    + unfold sample_row. apply Forall_map, Forall_forall. intros k _.
      apply next_cell_cases.
Qed.

Lemma repeatM_rows (r c : nat) (w : World) :
  ∃ grid,
    repeatM r (repeatM c (choose [ALIVE; DEAD] (normalise (cumsum [5 # 100; 95 # 100]%Q)))) w
    = (Return grid, set_rng_pos (rng_pos w + r * c) w)
    ∧ well_formed r c grid.
Proof.
  exists (sample_grid w (rng_pos w) r c).
  split; [apply repeatM_choose_grid | apply sample_grid_well_formed].
Qed.

Lemma length_string_drop (n : nat) (s : string) :
  String.length (string_drop n s) = (String.length s - n)%nat.
Proof.
  revert s. by induction n as [| n IH]; intros [| a s]; cbn.
Qed.

(** ** The shape numpy makes of the arguments *)

Lemma np_shape_accepted (r c : Z) :
  accepted r c → np_shape (PyInt r, PyInt c) = Return (r, c).
Proof.
  intros (Hr & Hc & Hbig). unfold np_shape, too_big.
  assert (r < 2 ^ 63 ∧ c < 2 ^ 63) as [Hr' Hc'] by nia.
  repeat match goal with
         | |- context [?a <? ?b] => rewrite (proj2 (Z.ltb_ge a b)) by lia
         | |- context [?a <=? ?b] => rewrite (proj2 (Z.leb_gt a b)) by lia
         end.
  reflexivity.
Qed.

Lemma np_shape_int_cases (r c : Z) :
  accepted r c ∨
  (¬ accepted r c ∧
   (np_shape (PyInt r, PyInt c) = Raise ValueError ∨
    np_shape (PyInt r, PyInt c) = Raise OverflowError)).
Proof.
  unfold np_shape.
  destruct ((r <? - 2 ^ 63) || (2 ^ 64 <=? r) || (c <? - 2 ^ 63) || (2 ^ 64 <=? c)) eqn:H1.
  { right. split; [| by right]. intros (Hr & Hc & Hbig).
    repeat (apply orb_true_iff in H1 as [H1 | H1]);
      first [apply Z.ltb_lt in H1 | apply Z.leb_le in H1]; nia. }
  destruct ((2 ^ 63 <=? r) || (2 ^ 63 <=? c)) eqn:H2.
  { right. split; [| by left]. intros (Hr & Hc & Hbig).
    apply orb_true_iff in H2 as [H2 | H2]; apply Z.leb_le in H2; nia. }
  destruct ((r <? 0) || (c <? 0) || too_big r c) eqn:H3.
  { right. split; [| by left]. intros (Hr & Hc & Hbig). unfold too_big in H3.
    repeat (apply orb_true_iff in H3 as [H3 | H3]);
      first [apply Z.ltb_lt in H3 | apply Z.leb_le in H3]; lia. }
  left. unfold too_big in H3.
  apply orb_false_iff in H3 as [H3 Hbig]. apply orb_false_iff in H3 as [Hr Hc].
  apply Z.ltb_ge in Hr, Hc. apply Z.leb_gt in Hbig. by repeat split.
Qed.

(** With a string among the two entries the shape is never accepted. *)
Lemma np_shape_str (rows cols : pyval) :
  is_str rows = true ∨ is_str cols = true →
  ∃ e, np_shape (rows, cols) = Raise e ∧
       (e = ValueError ∨ e = TypeError ∨ e = OverflowError).
Proof.
  intros H. unfold np_shape.
  destruct rows as [a | r], cols as [b | c];
    try (destruct H; discriminate);
    cbn [as_index];
    repeat match goal with
           | |- context [literal ?s] => destruct (literal s)
           | |- context [in_C_long ?n] => destruct (in_C_long n)
           end;
    eexists; (split; [reflexivity |]); auto.
Qed.

Lemma np_shape_strings (a b : string) :
  np_shape (PyStr a, PyStr b) = Raise (conversion_error a b).
Proof.
  unfold np_shape, conversion_error, as_index.
  destruct (literal a) as [n |]; [| done].
  destruct (in_C_long n); [| done].
  destruct (literal b) as [m |]; [| done].
  by destruct (in_C_long m).
Qed.

(** ** numpy.random.choice on the arguments of [main] *)

Lemma choice_unfold (size : pyval * pyval) (w : World) :
  np_random_choice [ALIVE; DEAD] size [5 # 100; 95 # 100]%Q w
  = match np_shape size with
    | Raise e => (Raise e, w)
    | Return (r, c) =>
        match memory w r c with
        | FailsBeforeDraw => (Raise MemoryError, w)
        | FailsAfterDraw =>
            (Raise MemoryError, set_rng_pos (rng_pos w + cells r c) w)
        | Fits =>
            (Return (sample_grid w (rng_pos w) (Z.to_nat r) (Z.to_nat c)),
             set_rng_pos (rng_pos w + cells r c) w)
        end
    end.
Proof.
  unfold np_random_choice. cbn [length Nat.eqb negb].
  change (existsb _ _) with false. cbv iota.
  change (negb (Qle_bool _ atol)) with false. cbv iota.
  unfold mbind, M_bind, lift, gets at 1.
  destruct (np_shape size) as [[r c] | e]; [| reflexivity].
  fold (cells r c).
  destruct (memory w r c); [| reflexivity |];
    rewrite repeatM_choose_grid; reflexivity.
Qed.

(** A shape that is refused ends the call before any sample is drawn. *)
Lemma choice_refused (size : pyval * pyval) (e : exn) (w : World) :
  np_shape size = Raise e →
  np_random_choice [ALIVE; DEAD] size [5 # 100; 95 # 100]%Q w = (Raise e, w).
Proof. intros H. by rewrite choice_unfold, H. Qed.

(** ** The [with] block of lines 33-34 *)

Lemma string_take_0 (s : string) : string_take 0 s = "".
Proof. by destruct s. Qed.

(** The three ways the block can end: the path cannot be opened; the text
    reaches the device; the device refuses the text and keeps the part
    that fitted.  Whether the refusal is met in [write] or in the closing
    of the file, the outcome is the same, and the descriptor table is the
    same before and after in each case. *)
Lemma with_open_write (path s : string) (w : World) :
  with_open_w path (fun file => file_write file s;; mret tt) w
  = if decide (path ∈ denied w) then (Raise OSError, w)
    else if (String.length s <=? disk_free w)%nat
         then (Return tt,
               set_disk_free (disk_free w - String.length s)
                 (set_files (<[path := s]> (files w)) w))
         else (Raise OSError,
               set_disk_free 0
                 (set_files (<[path := string_take (disk_free w) s]> (files w)) w)).
Proof.
  unfold with_open_w, mbind, M_bind, py_open_w.
  destruct (decide (path ∈ denied w)) as [Hd | Hd]; [reflexivity |].
  set (fd := fresh (dom (fds w))).
  assert (Hfresh : fd ∉ dom (fds w)) by apply is_fresh.
  destruct w as [av sq ps mem so se fl tab dn free buf].
  cbn [fds files disk_free] in *. clearbody fd.
  unfold finally, file_write, file_close, device_write, mret, M_ret.
  cbn [fds files disk_free buffer_size set_fds set_files set_disk_free sys_argv
       rng_seq rng_pos np_memory stdout stderr denied].
  rewrite lookup_insert_eq. cbn [of_path of_pending]. rewrite append_nil.
  destruct (String.length s <=? buf)%nat.
  - cbn [fds files disk_free buffer_size set_fds set_files set_disk_free sys_argv
         rng_seq rng_pos np_memory stdout stderr denied].
    rewrite !lookup_insert_eq. cbn [of_path of_pending default].
    destruct (String.length s <=? free)%nat;
      cbn [fds files disk_free buffer_size set_fds set_files set_disk_free sys_argv
           rng_seq rng_pos np_memory stdout stderr denied];
      rewrite !insert_insert_eq, delete_insert_dom, append_nil by done;
      reflexivity.
  - rewrite !lookup_insert_eq. cbn [default].
    destruct (Nat.leb_spec (String.length s) free) as [Hfit | Hfull];
      cbn [fds files disk_free buffer_size set_fds set_files set_disk_free sys_argv
           rng_seq rng_pos np_memory stdout stderr denied];
      rewrite !lookup_insert_eq; cbn [of_path of_pending default].
    + cbn [String.length Nat.leb].
      cbn [fds files disk_free buffer_size set_fds set_files set_disk_free sys_argv
           rng_seq rng_pos np_memory stdout stderr denied].
      rewrite !insert_insert_eq, delete_insert_dom, append_nil, append_empty_r,
        Nat.sub_0_r by done.
      reflexivity.
    + rewrite (proj2 (Nat.leb_gt _ 0)) by (rewrite length_string_drop; lia).
      cbn [fds files disk_free buffer_size set_fds set_files set_disk_free sys_argv
           rng_seq rng_pos np_memory stdout stderr denied].
      rewrite !insert_insert_eq, delete_insert_dom, append_nil, string_take_0,
        append_empty_r by done.
      reflexivity.
Qed.

Lemma with_open_write_fds (path s : string) (w : World) :
  fds (with_open_w path (fun file => file_write file s;; mret tt) w).2 = fds w.
Proof.
  rewrite with_open_write.
  destruct (decide _); [reflexivity |].
  destruct (_ <=? _)%nat; by destruct w.
Qed.

(** ** The paths through [main] *)

(** [main] reads nothing of [sys.argv] but its length and its tail. *)
Lemma main_unfold (w : World) :
  main w =
  if (4 <? length (sys_argv w))%nat
  then (Raise (SystemExit 1), set_stdout (stdout w ++ [usage]) w)
  else
    match drop 1 (sys_argv w) with
    | [rows; cols] =>
        match np_random_choice [ALIVE; DEAD] (rows, cols) [5 # 100; 95 # 100]%Q w with
        | (Return grid, w1) =>
            with_open_w file_path
              (fun file => file_write file (grid_str grid);; mret tt) w1
        | (Raise e, w1) => (Raise e, w1)
        end
    | _ => (Raise ValueError, w)
    end.
Proof.
  unfold main, mbind, M_bind, gets. simpl.
  destruct (4 <? length (sys_argv w))%nat; [reflexivity |].
  simpl. destruct (drop 1 (sys_argv w)) as [| a [| b [| c l]]]; reflexivity.
Qed.

(** More than four entries in [sys.argv]: the usage line and [exit(1)]. *)
Lemma main_usage (w : World) :
  (4 < length (sys_argv w))%nat →
  main w = (Raise (SystemExit 1), set_stdout (stdout w ++ [usage]) w).
Proof.
  intros H. rewrite main_unfold.
  by rewrite (proj2 (Nat.ltb_lt _ _)) by done.
Qed.

(** At most four entries, of which the tail is not a pair: the unpacking on
    line 26 raises and nothing else has happened. *)
Lemma main_unpack_error (w : World) :
  (length (sys_argv w) ≤ 4)%nat → length (sys_argv w) ≠ 3%nat →
  main w = (Raise ValueError, w).
Proof.
  intros Hle Hne. rewrite main_unfold.
  rewrite (proj2 (Nat.ltb_ge _ _)) by done.
  by destruct (sys_argv w) as [| p [| a [| b [| c l]]]].
Qed.

(** Exactly two values after the program name that numpy refuses as a
    shape: the grid constructor raises and nothing else has happened. *)
Lemma main_shape_error (w : World) (prog rows cols : pyval) (e : exn) :
  sys_argv w = [prog; rows; cols] →
  np_shape (rows, cols) = Raise e →
  main w = (Raise e, w).
Proof.
  intros Hargv Hshape. rewrite main_unfold, Hargv. cbn [length drop Nat.ltb Nat.leb].
  by rewrite (choice_refused _ e).
Qed.

(** Exactly two values after the program name that numpy accepts as a
    shape: the run is decided by the memory, the path and the device. *)
Lemma main_int_closed (w : World) (prog : pyval) (r c : Z) :
  sys_argv w = [prog; PyInt r; PyInt c] → accepted r c →
  main w =
  let w1 := set_rng_pos (rng_pos w + cells r c) w in
  match memory w r c with
  | FailsBeforeDraw => (Raise MemoryError, w)
  | FailsAfterDraw => (Raise MemoryError, w1)
  | Fits =>
      if decide (file_path ∈ denied w) then (Raise OSError, w1)
      else if (String.length (board w r c) <=? disk_free w)%nat
           then (Return tt,
                 set_disk_free (disk_free w - String.length (board w r c))
                   (set_files (<[file_path := board w r c]> (files w)) w1))
           else (Raise OSError,
                 set_disk_free 0
                   (set_files
                      (<[file_path := string_take (disk_free w) (board w r c)]> (files w))
                      w1))
  end.
Proof.
  intros Hargv Hacc. rewrite main_unfold, Hargv. cbn [length drop Nat.ltb Nat.leb].
  rewrite choice_unfold, (np_shape_accepted r c Hacc). cbv zeta.
  destruct (memory w r c); try reflexivity.
  by rewrite with_open_write.
Qed.

Lemma board_length (w : World) (r c : Z) :
  String.length (board w r c)
  = (Z.to_nat r * Z.to_nat c + (Z.to_nat r - 1))%nat.
Proof. apply length_grid_str, sample_grid_well_formed. Qed.

Lemma main_cases (w : World) : main_outcome w (main w).
Proof.
  destruct (Nat.ltb_spec 4 (length (sys_argv w))) as [Hlt | Hle].
  { rewrite main_usage by done. by constructor. }
  destruct (decide (length (sys_argv w) = 3%nat)) as [H3 | H3];
    [| rewrite main_unpack_error by done; by constructor].
  destruct (sys_argv w) as [| prog [| rows [| cols [| x l]]]] eqn:Hargv;
    try discriminate.
  destruct (is_str rows || is_str cols) eqn:Hstr.
  { apply orb_true_iff in Hstr.
    destruct (np_shape_str rows cols Hstr) as (e & He & Hcls).
    rewrite (main_shape_error w prog rows cols e Hargv He).
    by eapply ends_shape. }
  apply orb_false_iff in Hstr as [Hrows Hcols].
  destruct rows as [s | r]; [discriminate |].
  destruct cols as [s | c]; [discriminate |].
  destruct (np_shape_int_cases r c) as [Hacc | [_ [He | He]]].
  - rewrite main_unfold, Hargv. cbn [length drop Nat.ltb Nat.leb].
    rewrite choice_unfold, (np_shape_accepted r c Hacc).
    destruct (memory w r c) eqn:Hmem.
    + eapply ends_in_block; try done.
      by rewrite choice_unfold, (np_shape_accepted r c Hacc), Hmem.
    + by eapply ends_memory_before.
    + by eapply ends_memory_after.
  - rewrite (main_shape_error w prog _ _ _ Hargv He). eapply ends_shape; eauto.
  - rewrite (main_shape_error w prog _ _ _ Hargv He). eapply ends_shape; eauto.
Qed.

(** Whenever [main] returns, [sys.argv] held two integers that numpy
    accepted as a shape, the memory was there, and the final world is the
    one the [with] block leaves after a complete write. *)
Lemma main_returns (w w' : World) (u : unit) :
  main w = (Return u, w') →
  ∃ (prog : pyval) (r c : Z),
    sys_argv w = [prog; PyInt r; PyInt c] ∧ accepted r c ∧
    memory w r c = Fits ∧
    (file_path ∉ denied w) ∧
    (String.length (board w r c) ≤ disk_free w)%nat ∧
    w' = set_disk_free (disk_free w - String.length (board w r c))
           (set_files (<[file_path := board w r c]> (files w))
              (set_rng_pos (rng_pos w + cells r c) w)).
Proof.
  intros Hrun.
  destruct (Nat.ltb_spec 4 (length (sys_argv w))) as [Hlt | Hle].
  { rewrite main_usage in Hrun by done. discriminate. }
  destruct (decide (length (sys_argv w) = 3%nat)) as [H3 | H3];
    [| rewrite main_unpack_error in Hrun by done; discriminate].
  destruct (sys_argv w) as [| prog [| rows [| cols [| x l]]]] eqn:Hargv;
    try discriminate.
  destruct (is_str rows || is_str cols) eqn:Hstr.
  { apply orb_true_iff in Hstr.
    destruct (np_shape_str rows cols Hstr) as (e & He & _).
    rewrite (main_shape_error w prog rows cols e Hargv He) in Hrun. discriminate. }
  apply orb_false_iff in Hstr as [Hrows Hcols].
  destruct rows as [s | r]; [discriminate |].
  destruct cols as [s | c]; [discriminate |].
  destruct (np_shape_int_cases r c) as [Hacc | [_ [He | He]]];
    [| rewrite (main_shape_error w prog _ _ _ Hargv He) in Hrun; discriminate ..].
  rewrite (main_int_closed w prog r c Hargv Hacc) in Hrun. cbv zeta in Hrun.
  destruct (memory w r c) eqn:Hmem; try discriminate.
  destruct (decide (file_path ∈ denied w)) as [Hd | Hd]; [discriminate |].
  destruct (Nat.leb_spec (String.length (board w r c)) (disk_free w)) as [Hfit | Hfull];
    [| discriminate].
  injection Hrun as <-.
  by exists prog, r, c.
Qed.

(** From a shell every entry of [sys.argv] is a string, and then [main]
    never returns: it can only do so with integers in [sys.argv]. *)
Lemma main_never_returns_from_shell (w w' : World) (u : unit) :
  Forall (fun v => is_str v = true) (sys_argv w) →
  main w ≠ (Return u, w').
Proof.
  intros Hstr Hrun.
  destruct (main_returns w w' u Hrun) as (prog & r & c & Hargv & _).
  rewrite Hargv in Hstr.
  inversion Hstr as [| ? ? _ Htail]; subst.
  inversion Htail as [| ? ? Hr _]; subst. discriminate.
Qed.

(** The usage path proper, for comparison: four or more values. *)
Lemma main_four_or_more_arguments (w : World) :
  (3 < length (drop 1 (sys_argv w)))%nat →
  run_script w = (1, set_stdout (stdout w ++ [usage]) w).
Proof.
  intros H. rewrite length_drop in H.
  unfold run_script. rewrite main_usage by lia. reflexivity.
Qed.

Lemma lookup_map {A B : Type} (f : A → B) (l : list A) (i : nat) :
  map f l !! i = f <$> (l !! i).
Proof.
  revert i. by induction l as [| x l IH]; intros [| i]; cbn.
Qed.

(** Line [i], column [j] of the board. *)
Lemma board_lookup (w : World) (r c : Z) (i j : nat) :
  (i < Z.to_nat r)%nat → (j < Z.to_nat c)%nat →
  ∃ line : string,
    split nl (board w r c) !! i = Some line ∧
    String.length line = Z.to_nat c ∧
    String.get j line = Some (board_char w c i j).
Proof.
  intros Hi Hj. unfold board.
  set (G := sample_grid w (rng_pos w) (Z.to_nat r) (Z.to_nat c)).
  assert (Hwf : well_formed (Z.to_nat r) (Z.to_nat c) G)
    by apply sample_grid_well_formed.
  destruct Hwf as [Hlen Hall].
  assert (Hrow : G !! i = Some (sample_row w (rng_pos w + i * Z.to_nat c) (Z.to_nat c))).
  { unfold G, sample_grid. rewrite lookup_map, lookup_seq_lt by done. reflexivity. }
  destruct (proj1 (Forall_lookup _ _) Hall i _ Hrow) as [Hrl Hcells].
  destruct (row_text _ Hcells) as (Hl & _ & Hget).
  exists (join "" (sample_row w (rng_pos w + i * Z.to_nat c) (Z.to_nat c))).
  split; [| split].
  - unfold grid_str. change newline with (String nl "").
    rewrite split_join.
    + by rewrite lookup_map, Hrow.
    + destruct G; [cbn in Hlen; lia | done].
    + by apply (rows_without_newline (Z.to_nat c)).
  - congruence.
  - rewrite (Hget j (cell_at w (rng_pos w + i * Z.to_nat c + j))).
    + unfold cell_at, next_cell, board_char. cbn [rng_seq rng_pos set_rng_pos].
      by destruct (_ <? _)%N.
    + unfold sample_row. rewrite lookup_map, lookup_seq_lt by done. reflexivity.
Qed.

(** With two positive integers in [sys.argv] that numpy accepts, memory
    for the grid, a path that can be opened and room on the device, [main]
    returns and [./life.txt] holds [rows] lines of [cols] cells. *)
Lemma main_int_dimensions (w : World) (prog : pyval) (r c : Z) :
  sys_argv w = [prog; PyInt r; PyInt c] →
  1 ≤ r → 1 ≤ c → accepted r c → memory w r c = Fits →
  file_path ∉ denied w →
  (Z.to_nat r * Z.to_nat c + (Z.to_nat r - 1) ≤ disk_free w)%nat →
  ∃ (grid : list (list string)) (w' : World),
    main w = (Return tt, w') ∧
    well_formed (Z.to_nat r) (Z.to_nat c) grid ∧
    files w' !! file_path = Some (grid_str grid) ∧
    split nl (grid_str grid) = map (join "") grid.
Proof.
  intros Hargv Hr Hc Hacc Hmem Hd Hfree.
  exists (sample_grid w (rng_pos w) (Z.to_nat r) (Z.to_nat c)). eexists.
  assert (Hwf := sample_grid_well_formed w (rng_pos w) (Z.to_nat r) (Z.to_nat c)).
  split; [| split; [exact Hwf | split]].
  - rewrite (main_int_closed w prog r c Hargv Hacc), Hmem. cbv zeta.
    destruct (decide _) as [Hin | _]; [done |].
    rewrite board_length, (proj2 (Nat.leb_le _ _)) by exact Hfree. reflexivity.
  - cbn. apply lookup_insert_eq.
  - destruct Hwf as [Hlen Hall]. apply (split_join nl).
    + destruct (sample_grid _ _ _ _); [cbn in Hlen; lia | done].
    + by apply (rows_without_newline (Z.to_nat c)).
Qed.

(** * The statements of the specification *)

(** ** The serialisation (line 31) *)

(** C4.  In the text of a grid every row is a string of [cols] characters,
    ['*'] where the cell is ALIVE and a space where it is DEAD; the rows are
    separated by single newlines, so that splitting the text at newlines
    gives back exactly the rows; and there are [rows - 1] newlines in all,
    none after the last row. *)
Theorem grid_str_format (rows cols : nat) (grid : list (list string)) :
  well_formed rows cols grid →
  (∀ (i : nat) (row : list string),
     grid !! i = Some row →
     String.length (join "" row) = cols ∧
     ∀ (j : nat) (cell : string),
       row !! j = Some cell →
       (cell = ALIVE → String.get j (join "" row) = Some "*"%char) ∧
       (cell = DEAD → String.get j (join "" row) = Some " "%char)) ∧
  grid_str grid = join (String nl "") (map (join "") grid) ∧
  (grid ≠ [] → split nl (grid_str grid) = map (join "") grid) ∧
  count_char nl (grid_str grid) = (rows - 1)%nat.
Proof.
  intros [Hrows Hall].
  assert (Hlines := rows_without_newline cols grid Hall).
  split; [| split; [reflexivity | split]].
  - intros i row Hi.
    destruct (proj1 (Forall_lookup _ _) Hall i row Hi) as [Hlen Hcells].
    destruct (row_text row Hcells) as (Hl & _ & Hget).
    split; [congruence |].
    intros j cell Hj. rewrite (Hget j cell Hj).
    split; intros ->; reflexivity.
  - intros Hne. apply split_join; [by destruct grid | done].
  - unfold grid_str. change newline with (String nl "").
    rewrite count_char_join by done. by rewrite length_map, Hrows.
Qed.

Lemma grid_str_format_witness :
  well_formed 2 3 [[ALIVE; DEAD; DEAD]; [DEAD; ALIVE; DEAD]] ∧
  split nl (grid_str [[ALIVE; DEAD; DEAD]; [DEAD; ALIVE; DEAD]]) = ["*  "; " * "] ∧
  count_char nl (grid_str [[ALIVE; DEAD; DEAD]; [DEAD; ALIVE; DEAD]]) = 1%nat.
Proof.
  assert (Hwf : well_formed 2 3 [[ALIVE; DEAD; DEAD]; [DEAD; ALIVE; DEAD]]).
  { by_cases. }
  split; [exact Hwf |].
  destruct (grid_str_format 2 3 _ Hwf) as (_ & _ & Hsplit & Hcount).
  split; [by apply Hsplit | exact Hcount].
Defined.

(** ** Argument handling (lines 22-29) *)

(** C1, at the arguments ["3"] and ["5"].  The strings reach the grid
    constructor unconverted; [main] ends with [TypeError] before line 31,
    the status is 1, and the file system is as it was. *)
Theorem main_3_5 (w : World) :
  let w0 := set_argv (cmdline "./generate" ["3"; "5"]) w in
  valid_dimension "3" = true ∧ valid_dimension "5" = true ∧
  main w0 = (Raise TypeError, w0) ∧
  (run_script w0).1 = 1 ∧
  files (run_script w0).2 = files w.
Proof.
  intros w0.
  assert (Hmain : main w0 = (Raise TypeError, w0)).
  { by apply (main_shape_error w0 (PyStr "./generate") (PyStr "3") (PyStr "5")). }
  unfold run_script. rewrite Hmain. repeat split.
Qed.

(** C2, at three values after the program name.  The guard on line 22
    compares [len(sys.argv)] with 4, so this invocation passes it: nothing
    is printed, and the unpacking on line 26 raises [ValueError].  The
    status is 1 and no file is touched, but through the traceback and not
    through the usage path. *)
Theorem main_three_arguments (w : World) :
  let w0 := set_argv (cmdline "./generate" ["1"; "2"; "3"]) w in
  too_many w0 ∧
  main w0 = (Raise ValueError, w0) ∧
  stdout (run_script w0).2 = stdout w ∧
  stderr (run_script w0).2 = (stderr w ++ [traceback "ValueError"])%list ∧
  (run_script w0).1 = 1 ∧
  files (run_script w0).2 = files w.
Proof.
  intros w0.
  assert (Hmain : main w0 = (Raise ValueError, w0)) by (by apply main_unpack_error).
  unfold run_script. rewrite Hmain. repeat split.
  unfold too_many. cbn. lia.
Qed.

(** The two-argument rule with [TypeError] for every pair of strings fails
    at ["abc"] and ["5"]: the conversion of ["abc"] raises [ValueError]. *)
Lemma value_error_on_abc : ¬ spec_two_arguments (shell ["abc"; "5"]).
Proof.
  intros H. specialize (H "./generate" "abc" "5" eq_refl).
  rewrite (main_shape_error _ (PyStr "./generate") (PyStr "abc") (PyStr "5") ValueError)
    in H; [discriminate | reflexivity | reflexivity].
Qed.

(** C3, as the code has it.  With exactly two command-line arguments,
    line 26 binds the two strings as they are and the grid constructor
    refuses them before it draws a sample: with [ValueError] or
    [OverflowError] when a string does not convert to an integer of the C
    long range, and with [TypeError] when both do; for arguments of
    printable ASCII characters the class is that of [conversion_error].  [main] ends with
    that exception in the world it started in: no file was opened or
    written. *)
Theorem main_two_arguments (w : World) (prog a b : string) :
  sys_argv w = cmdline prog [a; b] →
  unpack2 (drop 1 (sys_argv w)) w = (Return (PyStr a, PyStr b), w) ∧
  (∃ e : exn,
     np_random_choice [ALIVE; DEAD] (PyStr a, PyStr b) [5 # 100; 95 # 100]%Q w
       = (Raise e, w) ∧
     main w = (Raise e, w) ∧
     (e = TypeError ∨ e = ValueError ∨ e = OverflowError) ∧
     (plain a = true → plain b = true → e = conversion_error a b)) ∧
  files (main w).2 = files w ∧ fds (main w).2 = fds w.
Proof.
  intros Hargv.
  assert (Hshape := np_shape_strings a b).
  assert (Hmain : main w = (Raise (conversion_error a b), w)).
  { by apply (main_shape_error w (PyStr prog) (PyStr a) (PyStr b)). }
  rewrite Hmain, Hargv. split; [reflexivity |]. split; [| by split].
  exists (conversion_error a b).
  split; [by apply choice_refused |]. split; [reflexivity |].
  split; [| done].
  unfold conversion_error.
  destruct (literal a) as [n |]; [| auto].
  destruct (in_C_long n); [| auto].
  destruct (literal b) as [m |]; [| auto].
  destruct (in_C_long m); auto.
Qed.

Lemma main_two_arguments_witness :
  main (shell ["3"; "5"]) = (Raise TypeError, shell ["3"; "5"]) ∧
  main (shell ["abc"; "5"]) = (Raise ValueError, shell ["abc"; "5"]) ∧
  main (shell ["99999999999999999999"; "5"])
    = (Raise OverflowError, shell ["99999999999999999999"; "5"]).
Proof.
  split; [| split].
  - destruct (main_two_arguments (shell ["3"; "5"]) "./generate" "3" "5" eq_refl)
      as (_ & (e & _ & Hmain & _ & Hcls) & _).
    rewrite Hmain, (Hcls eq_refl eq_refl). reflexivity.
  - destruct (main_two_arguments (shell ["abc"; "5"]) "./generate" "abc" "5" eq_refl)
      as (_ & (e & _ & Hmain & _ & Hcls) & _).
    rewrite Hmain, (Hcls eq_refl eq_refl). reflexivity.
  - destruct (main_two_arguments (shell ["99999999999999999999"; "5"])
                "./generate" "99999999999999999999" "5" eq_refl)
      as (_ & (e & _ & Hmain & _ & Hcls) & _).
    rewrite Hmain, (Hcls eq_refl eq_refl). reflexivity.
Defined.

(** C10.  With fewer than two values after the program name the unpacking
    on line 26 raises; [main] ends there, in the world it started in, so
    [./life.txt] is neither created nor overwritten. *)
Theorem main_too_few_arguments (w : World) :
  (length (drop 1 (sys_argv w)) < 2)%nat →
  unpack2 (drop 1 (sys_argv w)) w = (Raise ValueError, w) ∧
  main w = (Raise ValueError, w) ∧
  files (main w).2 !! file_path = files w !! file_path ∧
  fds (main w).2 = fds w.
Proof.
  intros Hlen.
  assert (Hmain : main w = (Raise ValueError, w)).
  { rewrite length_drop in Hlen. apply main_unpack_error; lia. }
  rewrite Hmain. repeat split.
  by destruct (drop 1 (sys_argv w)) as [| x [| y [| z l]]]; cbn in Hlen; try lia.
Qed.

Lemma main_too_few_arguments_witness :
  (length (drop 1 (sys_argv (shell ["3"]))) < 2)%nat ∧
  main (shell ["3"]) = (Raise ValueError, shell ["3"]) ∧
  files (main (shell ["3"])).2 !! file_path = Some "old".
Proof.
  assert (H : (length (drop 1 (sys_argv (shell ["3"]))) < 2)%nat) by (cbn; lia).
  split; [exact H |].
  destruct (main_too_few_arguments (shell ["3"]) H) as (_ & Hmain & Hfile & _).
  split; [exact Hmain |]. rewrite Hfile. reflexivity.
Defined.

(** ** The output file (lines 27, 33-34) *)

(** C6.  Whenever [main] returns, the grid the constructor produced has
    been written, serialised, to [./life.txt]: the file system afterwards
    is the one before with that single entry replaced, whatever it held,
    and every other path is as it was. *)
Theorem main_writes_life_txt (w w' : World) :
  main w = (Return tt, w') →
  ∃ (rows cols : pyval) (grid : list (list string)) (w1 : World),
    drop 1 (sys_argv w) = [rows; cols] ∧
    (np_random_choice [ALIVE; DEAD] (rows, cols) [5 # 100; 95 # 100]%Q w
       = (Return grid, w1)) ∧
    files w' = <["./life.txt" := grid_str grid]> (files w) ∧
    files w' !! "./life.txt" = Some (grid_str grid) ∧
    ∀ path : string, path ≠ "./life.txt" → files w' !! path = files w !! path.
Proof.
  intros Hrun.
  destruct (main_returns w w' tt Hrun)
    as (prog & r & c & Hargv & Hacc & Hmem & _ & _ & ->).
  exists (PyInt r), (PyInt c),
    (sample_grid w (rng_pos w) (Z.to_nat r) (Z.to_nat c)),
    (set_rng_pos (rng_pos w + cells r c) w).
  split; [by rewrite Hargv |].
  split; [by rewrite choice_unfold, (np_shape_accepted r c Hacc), Hmem |].
  split; [reflexivity |].
  split; [apply lookup_insert_eq |].
  intros path Hne. by apply lookup_insert_ne.
Qed.

Lemma main_writes_life_txt_witness :
  main (patched 2 3 1000) = (Return tt, (main (patched 2 3 1000)).2) ∧
  files (patched 2 3 1000) !! "./life.txt" = Some "old" ∧
  (∃ grid, files (main (patched 2 3 1000)).2 !! "./life.txt" = Some (grid_str grid)) ∧
  files (main (patched 2 3 1000)).2 !! "notes.txt" = Some "keep".
Proof.
  assert (H : main (patched 2 3 1000) = (Return tt, (main (patched 2 3 1000)).2))
    by (vm_compute; reflexivity).
  split; [exact H |]. split; [reflexivity |].
  destruct (main_writes_life_txt _ _ H) as (rows & cols & grid & w1 & _ & _ & _ & Hnew & Hframe).
  split; [by exists grid |].
  rewrite Hframe by discriminate. reflexivity.
Defined.

(** C9.  The descriptor opened on line 33 never outlives the block: the
    table of open descriptors after [main] is the table before it, however
    [main] ends; the same holds of the [with] block alone for every grid;
    and when the device refuses the text, the descriptor had been opened,
    the block ends with [OSError], raised by the write or by the closing
    of the file, and the descriptor is closed all the same. *)
Theorem file_handle_released (w : World) (grid : list (list string)) :
  let block :=
    with_open_w file_path (fun file => file_write file (grid_str grid);; mret tt) in
  fds (main w).2 = fds w ∧
  fds (block w).2 = fds w ∧
  (file_path ∉ denied w →
   (disk_free w < String.length (grid_str grid))%nat →
   ∃ (file : nat) (w1 : World),
     py_open_w file_path w = (Return file, w1) ∧
     is_Some (fds w1 !! file) ∧
     (block w).1 = Raise OSError ∧
     fds (block w).2 !! file = None).
Proof.
  intros block. split; [| split].
  - destruct (main_cases w) as [H | H1 H2 | prog rows cols e H1 H2 H3
                                | prog r c H1 H2 H3 | prog r c H1 H2 H3
                                | prog r c g w1 H1 H2 H3 H4 -> H5];
      try reflexivity.
    by rewrite with_open_write_fds.
  - apply with_open_write_fds.
  - intros Hd Hfull.
    assert (Hfresh : fresh (dom (fds w)) ∉ dom (fds w)) by apply is_fresh.
    exists (fresh (dom (fds w))). eexists.
    split; [| split; [| split]].
    + unfold py_open_w. destruct (decide (file_path ∈ denied w)); [done |]. reflexivity.
    + destruct w; cbn. rewrite lookup_insert_eq. by eexists.
    + unfold block. rewrite with_open_write.
      destruct (decide (file_path ∈ denied w)); [done |].
      by rewrite (proj2 (Nat.leb_gt _ _)) by done.
    + unfold block. rewrite with_open_write_fds. by apply not_elem_of_dom.
Qed.

Lemma file_handle_released_witness :
  (file_path ∉ denied (patched 1 1 0)) ∧
  (disk_free (patched 1 1 0) < String.length (grid_str [[ALIVE]]))%nat ∧
  (with_open_w file_path (fun file => file_write file (grid_str [[ALIVE]]);; mret tt)
     (patched 1 1 0)).1 = Raise OSError ∧
  (with_open_w file_path (fun file => file_write file (grid_str [[ALIVE]]);; mret tt)
     (unbuffered 1 1 0)).1 = Raise OSError ∧
  fds (main (patched 1 1 0)).2 = ∅.
Proof.
  assert (Hd : file_path ∉ denied (patched 1 1 0)) by (cbn; set_solver).
  assert (Hfull : (disk_free (patched 1 1 0) < String.length (grid_str [[ALIVE]]))%nat)
    by (cbn; lia).
  split; [exact Hd |]. split; [exact Hfull |].
  destruct (file_handle_released (patched 1 1 0) [[ALIVE]]) as (Hmain & _ & Hfail).
  destruct (Hfail Hd Hfull) as (file & w1 & _ & _ & Hblock & _).
  split; [exact Hblock |]. split; [| exact Hmain].
  destruct (file_handle_released (unbuffered 1 1 0) [[ALIVE]]) as (_ & _ & Hfail').
  destruct Hfail' as (file' & w1' & _ & _ & Hblock' & _);
    [cbn; set_solver | cbn; lia | exact Hblock'].
Defined.

(** ** Exit status and error reports (lines 22-24, 36-37) *)

(** The specification's parse-error rule fails at the arguments ["0"] and
    ["5"]: ["0"] is not a positive integer, yet nothing rejects it when it
    is parsed; the run fails all the same, with the [TypeError] that two
    valid dimensions meet too. *)
Lemma zero_is_not_rejected : ¬ spec_parse_error (shell ["0"; "5"]) "0" "5".
Proof.
  intros H.
  destruct H as [(e & w' & _ & [Hrej | Hrej]) _];
    [reflexivity | by left | |]; vm_compute in Hrej; discriminate.
Qed.

(** C7, as the code has it.  When either of the two command-line arguments
    is not an integer literal, the run fails where the grid constructor
    converts the arguments to integers: with [ValueError] for the argument
    that is no literal, or with [OverflowError] when the first argument is
    a literal outside the C long range.  The script itself parses nothing
    and there is no [ParseError]; the interpreter reports the traceback on
    standard error and exits with status 1. *)
Theorem main_invalid_dimension (w : World) (rows cols : string) :
  drop 1 (sys_argv w) = [PyStr rows; PyStr cols] →
  plain rows = true → plain cols = true →
  literal rows = None ∨ literal cols = None →
  ∃ cls : string,
    main w = (Raise (Exception cls), w) ∧
    (cls = "ValueError" ∨ cls = "OverflowError") ∧
    (literal rows = None → cls = "ValueError") ∧
    (as_index (PyStr rows) = Raise (Exception cls) ∨
     as_index (PyStr cols) = Raise (Exception cls)) ∧
    run_script w = (1, set_stderr (stderr w ++ [traceback cls]) w) ∧
    (run_script w).1 ≠ 0.
Proof.
  intros Hargs _ _ Hinvalid.
  destruct (sys_argv w) as [| prog l] eqn:Hargv; [discriminate |].
  change (l = [PyStr rows; PyStr cols]) in Hargs. subst l.
  assert (Hmain : main w = (Raise (conversion_error rows cols), w)).
  { apply (main_shape_error w prog (PyStr rows) (PyStr cols)); [done |].
    apply np_shape_strings. }
  unfold run_script. rewrite Hmain. unfold conversion_error, as_index.
  destruct (literal rows) as [n |].
  - destruct (in_C_long n).
    + destruct Hinvalid as [H | H]; [discriminate |]. rewrite H.
      exists "ValueError". repeat split; auto; try discriminate.
    + exists "OverflowError". repeat split; auto; try discriminate.
  - exists "ValueError". repeat split; auto; try discriminate.
Qed.

Lemma main_invalid_dimension_witness :
  drop 1 (sys_argv (shell ["abc"; "5"])) = [PyStr "abc"; PyStr "5"] ∧
  literal "abc" = None ∧
  main (shell ["abc"; "5"]) = (Raise ValueError, shell ["abc"; "5"]) ∧
  (run_script (shell ["abc"; "5"])).1 = 1.
Proof.
  split; [reflexivity |]. split; [reflexivity |].
  destruct (main_invalid_dimension (shell ["abc"; "5"]) "abc" "5")
    as (cls & Hmain & _ & Hcls & _ & Hrun & _);
    [reflexivity | reflexivity | reflexivity | by left |].
  rewrite Hmain, Hrun, (Hcls eq_refl). by split.
Defined.

(** The specification's exit-status rule fails for the bare command: the
    status is 1 although no argument at all was supplied. *)
Lemma status_1_without_arguments : ¬ spec_exit_status (shell []).
Proof.
  intros [_ H].
  assert (H1 : (run_script (shell [])).1 = 1).
  { unfold run_script. by rewrite main_unpack_error by (cbn; lia). }
  apply H in H1. unfold too_many in H1. cbn in H1. lia.
Qed.

(** C8, as the code has it.  The status is 0 whenever [main] returns; it is
    1 whenever more than two values follow the program name; and it is 1 as
    well when fewer than two do, where the unpacking error ends the
    process. *)
Theorem exit_status (w : World) :
  ((∃ w', main w = (Return tt, w')) → (run_script w).1 = 0) ∧
  (too_many w → (run_script w).1 = 1) ∧
  ((length (drop 1 (sys_argv w)) < 2)%nat → (run_script w).1 = 1).
Proof.
  unfold too_many, run_script. rewrite length_drop. split; [| split].
  - intros [w' ->]. reflexivity.
  - intros H.
    destruct (Nat.ltb_spec 4 (length (sys_argv w))).
    + by rewrite main_usage.
    + by rewrite main_unpack_error by lia.
  - intros H. by rewrite main_unpack_error by lia.
Qed.

Lemma exit_status_witness :
  (run_script (patched 2 3 1000)).1 = 0 ∧
  (run_script (shell ["1"; "2"; "3"; "4"])).1 = 1 ∧
  (run_script (shell ["1"])).1 = 1.
Proof.
  split; [| split].
  - apply (proj1 (exit_status (patched 2 3 1000))).
    exists (main (patched 2 3 1000)).2. vm_compute. reflexivity.
  - apply (proj1 (proj2 (exit_status (shell ["1"; "2"; "3"; "4"])))).
    unfold too_many. cbn. lia.
  - apply (proj2 (proj2 (exit_status (shell ["1"])))). cbn. lia.
Defined.

(** * Further properties of [main] *)

(** ** The usage path and the exit status (lines 22-24, 36-37) *)

(** X1.  With more than four entries in [sys.argv], of whatever kind, the
    run prints the usage line once on standard output and exits with
    status 1 through [exit(1)]: no traceback is written, no sample is
    drawn, and the file system is as it was. *)
Theorem usage_path (w : World) :
  (4 < length (sys_argv w))%nat →
  main w = (Raise (SystemExit 1), set_stdout (stdout w ++ [usage]) w) ∧
  (run_script w).1 = 1 ∧
  stdout (run_script w).2
    = (stdout w ++ ["Usage: ./generate [ROWS] [COLUMNS]"])%list ∧
  stderr (run_script w).2 = stderr w ∧
  files (run_script w).2 = files w ∧
  rng_pos (run_script w).2 = rng_pos w.
Proof.
  intros H. unfold run_script. rewrite main_usage by done. by repeat split.
Qed.

Lemma usage_path_witness :
  (4 < length (sys_argv (shell ["1"; "2"; "3"; "4"])))%nat ∧
  stdout (run_script (shell ["1"; "2"; "3"; "4"])).2
    = ["Usage: ./generate [ROWS] [COLUMNS]"] ∧
  files (run_script (shell ["1"; "2"; "3"; "4"])).2 !! "./life.txt" = Some "old".
Proof.
  assert (H : (4 < length (sys_argv (shell ["1"; "2"; "3"; "4"])))%nat) by (cbn; lia).
  split; [exact H |].
  destruct (usage_path _ H) as (_ & _ & Hout & _ & Hfiles & _).
  split; [exact Hout | by rewrite Hfiles].
Defined.

(** X2.  Whatever [sys.argv] holds, the status of the process is 0 or 1,
    and it is 0 exactly when [main] returned; standard output receives
    nothing or the usage line; standard error receives nothing or one
    traceback. *)
Theorem run_script_report (w : World) :
  ((run_script w).1 = 0 ∨ (run_script w).1 = 1) ∧
  ((run_script w).1 = 0 ↔ ∃ w', main w = (Return tt, w')) ∧
  (stdout (run_script w).2 = stdout w ∨
   stdout (run_script w).2 = (stdout w ++ [usage])%list) ∧
  (stderr (run_script w).2 = stderr w ∨
   ∃ cls, stderr (run_script w).2 = (stderr w ++ [traceback cls])%list).
Proof.
  unfold run_script.
  destruct (main_cases w) as [H | H1 H2 | prog rows cols e H1 H2 H3
                              | prog r c H1 H2 H3 | prog r c H1 H2 H3
                              | prog r c g w1 H1 H2 H3 H4 -> H5].
  - repeat split; try (by right); try (by left).
    + discriminate.
    + intros [w' Hw']. discriminate.
  - repeat split; try (by right); try (by left).
    + discriminate.
    + intros [w' Hw']. discriminate.
    + right. by exists "ValueError".
  - destruct H3 as [-> | [-> | ->]];
      (repeat split; try (by right); try (by left);
       [discriminate | intros [w' Hw']; discriminate | right; by eexists]).
  - repeat split; try (by right); try (by left);
      [discriminate | intros [w' Hw']; discriminate | right; by eexists].
  - repeat split; try (by right); try (by left);
      [discriminate | intros [w' Hw']; discriminate | right; by eexists].
  - rewrite with_open_write.
    destruct (decide _) as [Hd | Hd]; [| destruct (_ <=? _)%nat].
    + repeat split; try (by right); try (by left).
      * discriminate.
      * intros [w' Hw']. discriminate.
      * right. by exists "OSError".
    + repeat split; try (by right); try (by left). intros _. by eexists.
    + repeat split; try (by right); try (by left).
      * discriminate.
      * intros [w' Hw']. discriminate.
      * right. by exists "OSError".
Qed.

Lemma run_script_report_witness :
  (run_script (patched 2 3 1000)).1 = 0 ∧ (run_script (shell ["3"; "5"])).1 = 1.
Proof.
  split.
  - apply (proj1 (proj2 (run_script_report (patched 2 3 1000)))).
    exists (main (patched 2 3 1000)).2. vm_compute. reflexivity.
  - destruct (proj1 (run_script_report (shell ["3"; "5"]))) as [H | H];
      [vm_compute in H; discriminate | exact H].
Defined.

(** ** What a run leaves behind (lines 26-34) *)

(** X3.  However [main] ends, every path other than [./life.txt] holds
    what it held before, and [sys.argv] is as it was: the script writes to
    one file only and does not alter its arguments. *)
Theorem main_touches_only_life_txt (w : World) :
  (∀ path : string,
     path ≠ "./life.txt" → files (main w).2 !! path = files w !! path) ∧
  sys_argv (main w).2 = sys_argv w.
Proof.
  destruct (main_cases w) as [H | H1 H2 | prog rows cols e H1 H2 H3
                              | prog r c H1 H2 H3 | prog r c H1 H2 H3
                              | prog r c g w1 H1 H2 H3 H4 -> H5];
    try (split; [intros path _ |]; reflexivity).
  rewrite with_open_write.
  destruct (decide _) as [Hd | Hd]; [| destruct (_ <=? _)%nat];
    (split; [intros path Hne | reflexivity]); cbn [snd files set_files set_disk_free set_rng_pos];
    try reflexivity; by rewrite lookup_insert_ne.
Qed.

Lemma main_touches_only_life_txt_witness :
  files (main (patched 2 3 1000)).2 !! "notes.txt" = Some "keep" ∧
  files (main (patched 2 3 2)).2 !! "notes.txt" = Some "keep".
Proof.
  split.
  - rewrite (proj1 (main_touches_only_life_txt (patched 2 3 1000))) by discriminate.
    reflexivity.
  - rewrite (proj1 (main_touches_only_life_txt (patched 2 3 2))) by discriminate.
    reflexivity.
Defined.

Lemma samples_drawn_other (w : World) :
  length (sys_argv w) ≠ 3%nat → samples_drawn w = 0%nat.
Proof.
  unfold samples_drawn. intros H.
  by destruct (sys_argv w) as [| a [| [s | r] [| [s' | c] [| d l]]]].
Qed.

(** X4.  A run draws exactly one sample per cell when [sys.argv] holds two
    integers that numpy accepts as a shape and the array of samples can be
    allocated, also when a later allocation, the opening of the file or
    the write then fails; on every other path it draws none.  The sequence
    the generator emits is never altered. *)
Theorem main_samples_consumed (w : World) :
  rng_pos (main w).2 = (rng_pos w + samples_drawn w)%nat ∧
  rng_seq (main w).2 = rng_seq w.
Proof.
  destruct (main_cases w) as [H | H1 H2 | prog rows cols e H1 H2 H3
                              | prog r c H1 H2 H3 | prog r c H1 H2 H3
                              | prog r c g w1 H1 H2 H3 H4 -> H5].
  - split; [| reflexivity]. cbn [snd rng_pos set_stdout].
    rewrite samples_drawn_other by lia. lia.
  - split; [| reflexivity]. cbn [snd].
    rewrite samples_drawn_other by done. lia.
  - split; [| reflexivity]. cbn [snd]. unfold samples_drawn. rewrite H1.
    destruct rows as [s | r]; [lia |]. destruct cols as [s | c]; [lia |].
    rewrite H2. lia.
  - unfold samples_drawn. rewrite H1, (np_shape_accepted r c H2), H3.
    split; [cbn; lia | reflexivity].
  - unfold samples_drawn. rewrite H1, (np_shape_accepted r c H2), H3.
    by split.
  - unfold samples_drawn. rewrite H1, (np_shape_accepted r c H2), H3.
    rewrite with_open_write.
    destruct (decide _) as [Hd | Hd]; [| destruct (_ <=? _)%nat]; by split.
Qed.

(** X5.  [main] returns exactly when [sys.argv] holds the program name and
    two integers that numpy accepts as a shape (neither negative, fewer
    than [2^60] cells over the non-zero dimensions), the memory for the
    grid is there, [./life.txt] can be opened for writing, and the device
    has room for [rows * cols] cells and [rows - 1] newlines. *)
Theorem main_returns_iff (w : World) :
  (∃ w', main w = (Return tt, w')) ↔
  ∃ (prog : pyval) (r c : Z),
    sys_argv w = [prog; PyInt r; PyInt c] ∧ accepted r c ∧
    memory w r c = Fits ∧
    ("./life.txt" ∉ denied w) ∧
    (Z.to_nat r * Z.to_nat c + (Z.to_nat r - 1) ≤ disk_free w)%nat.
Proof.
  split.
  - intros [w' Hrun].
    destruct (main_returns w w' tt Hrun)
      as (prog & r & c & Hargv & Hacc & Hmem & Hd & Hfit & _).
    exists prog, r, c. rewrite board_length in Hfit.
    split; [done |]. split; [done |]. split; [done |]. split; [exact Hd | exact Hfit].
  - intros (prog & r & c & Hargv & Hacc & Hmem & Hd & Hfree).
    rewrite (main_int_closed w prog r c Hargv Hacc), Hmem. cbv zeta.
    destruct (decide (file_path ∈ denied w)); [done |].
    rewrite board_length, (proj2 (Nat.leb_le _ _)) by done. by eexists.
Qed.

Lemma main_returns_iff_witness :
  ∃ w', main (patched 2 3 7) = (Return tt, w').
Proof.
  apply (proj2 (main_returns_iff (patched 2 3 7))).
  exists (PyStr "./generate"), 2, 3.
  split; [reflexivity |]. split; [unfold accepted; lia |]. split; [reflexivity |].
  split; [cbn; set_solver | cbn; lia].
Defined.

(** X6.  When [main] returns with the integers [r] and [c] in [sys.argv],
    [./life.txt] holds [r * c + (r - 1)] characters, and the character at
    column [j] of line [i] is ['*'] or a space according to whether sample
    number [i * c + j] from the generator's position is below 0.05: the
    cells are filled in row-major order, one sample each. *)
Theorem life_txt_contents (w w' : World) (prog : pyval) (r c : Z) :
  sys_argv w = [prog; PyInt r; PyInt c] →
  main w = (Return tt, w') →
  ∃ text : string,
    files w' !! "./life.txt" = Some text ∧
    String.length text = (Z.to_nat r * Z.to_nat c + (Z.to_nat r - 1))%nat ∧
    ∀ i j : nat,
      (i < Z.to_nat r)%nat → (j < Z.to_nat c)%nat →
      ∃ line : string,
        split nl text !! i = Some line ∧
        String.length line = Z.to_nat c ∧
        String.get j line = Some (board_char w c i j).
Proof.
  intros Hargv Hrun.
  destruct (main_returns w w' tt Hrun) as (prog' & r' & c' & Hargv' & _ & _ & _ & _ & ->).
  rewrite Hargv in Hargv'. injection Hargv' as _ <- <-.
  exists (board w r c). split; [apply lookup_insert_eq |].
  split; [apply board_length |].
  intros i j Hi Hj. by apply board_lookup.
Qed.

Lemma life_txt_contents_witness :
  main (patched 2 3 1000) = (Return tt, (main (patched 2 3 1000)).2) ∧
  ∃ text : string,
    files (main (patched 2 3 1000)).2 !! "./life.txt" = Some text ∧
    String.length text = 7%nat ∧
    ∃ line : string,
      split nl text !! 1%nat = Some line ∧ String.get 1 line = Some "*"%char.
Proof.
  assert (H : main (patched 2 3 1000) = (Return tt, (main (patched 2 3 1000)).2))
    by (vm_compute; reflexivity).
  split; [exact H |].
  destruct (life_txt_contents (patched 2 3 1000) _ (PyStr "./generate") 2 3 eq_refl H)
    as (text & Hfile & Hlen & Hcells).
  exists text. split; [exact Hfile |]. split; [exact Hlen |].
  destruct (Hcells 1%nat 1%nat) as (line & Hline & _ & Hget); [cbn; lia | cbn; lia |].
  exists line. split; [exact Hline | exact Hget].
Defined.

(** ** Failures after the grid is built (lines 29, 33-34) *)

(** X7.  When numpy accepts the two integers and has the memory for the
    grid but [./life.txt] cannot be opened for writing, the run ends with
    [OSError] and status 1 after the grid has been drawn: the samples are
    spent, and the file system, with any earlier [./life.txt], is as it
    was. *)
Theorem main_open_denied (w : World) (prog : pyval) (r c : Z) :
  sys_argv w = [prog; PyInt r; PyInt c] → accepted r c →
  memory w r c = Fits →
  "./life.txt" ∈ denied w →
  main w = (Raise OSError, set_rng_pos (rng_pos w + Z.to_nat r * Z.to_nat c) w) ∧
  files (main w).2 = files w ∧
  (run_script w).1 = 1.
Proof.
  intros Hargv Hacc Hmem Hd.
  assert (Hmain : main w
    = (Raise OSError, set_rng_pos (rng_pos w + Z.to_nat r * Z.to_nat c) w)).
  { rewrite (main_int_closed w prog r c Hargv Hacc), Hmem. cbv zeta.
    by destruct (decide (file_path ∈ denied w)). }
  unfold run_script. rewrite Hmain. by repeat split.
Qed.

Lemma main_open_denied_witness :
  "./life.txt" ∈ denied (locked 2 3) ∧
  rng_pos (main (locked 2 3)).2 = 6%nat ∧
  files (main (locked 2 3)).2 !! "./life.txt" = Some "old".
Proof.
  assert (Hd : "./life.txt" ∈ denied (locked 2 3)) by (cbn; set_solver).
  split; [exact Hd |].
  destruct (main_open_denied (locked 2 3) (PyStr "./generate") 2 3 eq_refl)
    as (Hmain & Hfiles & _);
    [unfold accepted; lia | reflexivity | exact Hd |].
  split; [by rewrite Hmain | by rewrite Hfiles].
Defined.

(** X8.  When the file can be opened but the device has no room for the
    whole text, the run ends with [OSError] and status 1, the descriptor
    is closed, and [./life.txt] is left with the characters that fitted:
    the [open] of line 33 has already truncated it, so its earlier
    contents are gone. *)
Theorem main_disk_full (w : World) (prog : pyval) (r c : Z) :
  sys_argv w = [prog; PyInt r; PyInt c] → accepted r c →
  memory w r c = Fits →
  "./life.txt" ∉ denied w →
  (disk_free w < Z.to_nat r * Z.to_nat c + (Z.to_nat r - 1))%nat →
  (main w).1 = Raise OSError ∧
  files (main w).2
    = <["./life.txt" := string_take (disk_free w) (board w r c)]> (files w) ∧
  fds (main w).2 = fds w ∧
  (run_script w).1 = 1.
Proof.
  intros Hargv Hacc Hmem Hd Hfull.
  assert (Hmain : main w
    = (Raise OSError,
       set_disk_free 0
         (set_files (<[file_path := string_take (disk_free w) (board w r c)]> (files w))
            (set_rng_pos (rng_pos w + cells r c) w)))).
  { rewrite (main_int_closed w prog r c Hargv Hacc), Hmem. cbv zeta.
    destruct (decide (file_path ∈ denied w)); [done |].
    by rewrite board_length, (proj2 (Nat.leb_gt _ _)) by done. }
  unfold run_script. rewrite Hmain. by repeat split.
Qed.

Lemma main_disk_full_witness :
  files (patched 2 3 6) !! "./life.txt" = Some "old" ∧
  files (main (patched 2 3 6)).2 !! "./life.txt" = Some ("*  " ++ newline ++ " *") ∧
  files (main (unbuffered 2 3 6)).2 !! "./life.txt" = Some ("*  " ++ newline ++ " *") ∧
  (run_script (patched 2 3 6)).1 = 1.
Proof.
  split; [reflexivity |].
  destruct (main_disk_full (patched 2 3 6) (PyStr "./generate") 2 3 eq_refl)
    as (_ & Hfiles & _ & Hstatus);
    [unfold accepted; lia | reflexivity | cbn; set_solver | cbn; lia |].
  destruct (main_disk_full (unbuffered 2 3 6) (PyStr "./generate") 2 3 eq_refl)
    as (_ & Hfiles' & _ & _);
    [unfold accepted; lia | reflexivity | cbn; set_solver | cbn; lia |].
  split; [by rewrite Hfiles |]. split; [by rewrite Hfiles' | exact Hstatus].
Defined.

(** ** Edge dimensions (line 29) *)

(** X9.  A negative integer of the C long range in either dimension, the
    other being of that range too, makes the grid constructor raise
    [ValueError] before any sample is drawn: [main] ends in the world it
    started in and the status is 1. *)
Theorem main_negative_dimension (w : World) (prog : pyval) (r c : Z) :
  sys_argv w = [prog; PyInt r; PyInt c] →
  - 2 ^ 63 ≤ r < 2 ^ 63 → - 2 ^ 63 ≤ c < 2 ^ 63 →
  r < 0 ∨ c < 0 →
  main w = (Raise ValueError, w) ∧ (run_script w).1 = 1.
Proof.
  intros Hargv Hr Hc Hneg.
  assert (Hmain : main w = (Raise ValueError, w)).
  { apply (main_shape_error w prog (PyInt r) (PyInt c)); [done |].
    unfold np_shape.
    rewrite (proj2 (Z.ltb_ge r (- 2 ^ 63))), (proj2 (Z.leb_gt (2 ^ 64) r)),
      (proj2 (Z.ltb_ge c (- 2 ^ 63))), (proj2 (Z.leb_gt (2 ^ 64) c)),
      (proj2 (Z.leb_gt (2 ^ 63) r)), (proj2 (Z.leb_gt (2 ^ 63) c)) by lia.
    cbn [orb].
    destruct Hneg as [H | H].
    - by rewrite (proj2 (Z.ltb_lt r 0)).
    - rewrite (proj2 (Z.ltb_lt c 0)) by done. by destruct (r <? 0). }
  unfold run_script. by rewrite Hmain.
Qed.

Lemma main_negative_dimension_witness :
  main (patched 2 (-3) 1000) = (Raise ValueError, patched 2 (-3) 1000).
Proof.
  apply (main_negative_dimension (patched 2 (-3) 1000) (PyStr "./generate") 2 (-3));
    [reflexivity | lia | lia | right; lia].
Defined.

(** X10.  With zero rows and fewer than [2^60] columns the run draws
    nothing and leaves [./life.txt] empty, without needing memory for a
    grid or room on the device; with zero columns and [n < 2^60] rows,
    memory and room for the text, it draws nothing and writes [n - 1]
    newlines and nothing else. *)
Theorem main_zero_dimension (w : World) (prog : pyval) (n : Z) :
  0 ≤ n < 2 ^ 60 → "./life.txt" ∉ denied w →
  (sys_argv w = [prog; PyInt 0; PyInt n] →
   (main w).1 = Return tt ∧
   files (main w).2 = <["./life.txt" := ""]> (files w) ∧
   rng_pos (main w).2 = rng_pos w) ∧
  (sys_argv w = [prog; PyInt n; PyInt 0] →
   memory w n 0 = Fits →
   (Z.to_nat n - 1 ≤ disk_free w)%nat →
   ∃ text : string,
     (main w).1 = Return tt ∧
     files (main w).2 = <["./life.txt" := text]> (files w) ∧
     String.length text = (Z.to_nat n - 1)%nat ∧
     count_char nl text = (Z.to_nat n - 1)%nat ∧
     rng_pos (main w).2 = rng_pos w).
Proof.
  intros Hn Hd. split.
  - intros Hargv.
    assert (Hacc : accepted 0 n) by (unfold accepted; lia).
    assert (Hmem : memory w 0 n = Fits) by reflexivity.
    rewrite (main_int_closed w prog 0 n Hargv Hacc), Hmem. cbv zeta.
    destruct (decide (file_path ∈ denied w)); [done |].
    change (board w 0 n) with "". cbn [String.length Nat.leb].
    repeat split. unfold cells. cbn. lia.
  - intros Hargv Hmem Hfree. exists (board w n 0).
    assert (Hacc : accepted n 0) by (unfold accepted; lia).
    rewrite (main_int_closed w prog n 0 Hargv Hacc), Hmem. cbv zeta.
    destruct (decide (file_path ∈ denied w)); [done |].
    assert (Hlen : String.length (board w n 0) = (Z.to_nat n - 1)%nat).
    { rewrite board_length. cbn. lia. }
    rewrite Hlen, (proj2 (Nat.leb_le _ _)) by done.
    repeat split; try done.
    + unfold board, grid_str. change newline with (String nl "").
      rewrite count_char_join.
      * by rewrite length_map, (proj1 (sample_grid_well_formed _ _ _ _)).
      * apply (rows_without_newline (Z.to_nat 0)), sample_grid_well_formed.
    + unfold cells. cbn. lia.
Qed.

Lemma main_zero_dimension_witness :
  files (main (patched 0 3 0)).2 !! "./life.txt" = Some "" ∧
  ∃ text : string,
    files (main (patched 3 0 1000)).2 !! "./life.txt" = Some text ∧
    String.length text = 2%nat ∧ count_char nl text = 2%nat.
Proof.
  split.
  - destruct (main_zero_dimension (patched 0 3 0) (PyStr "./generate") 3) as [H0 _];
      [lia | cbn; set_solver |].
    destruct (H0 eq_refl) as (_ & Hfiles & _). by rewrite Hfiles.
  - destruct (main_zero_dimension (patched 3 0 1000) (PyStr "./generate") 3) as [_ H0];
      [lia | cbn; set_solver |].
    destruct (H0 eq_refl) as (text & _ & Hfiles & Hlen & Hcount & _);
      [reflexivity | cbn; lia |].
    exists text. split; [| split; [exact Hlen | exact Hcount]].
    rewrite Hfiles. apply lookup_insert_eq.
Defined.

(** ** Running twice (lines 29-34) *)

(** X11.  After two runs in a row that both return, [./life.txt] holds the
    grid of the second run alone, drawn from the samples that follow those
    of the first; the rest of the file system is as after a single run,
    and the generator has moved on by two grids. *)
Theorem main_twice (w w1 w2 : World) (prog : pyval) (r c : Z) :
  sys_argv w = [prog; PyInt r; PyInt c] →
  main w = (Return tt, w1) →
  main w1 = (Return tt, w2) →
  files w1 = <["./life.txt" := board w r c]> (files w) ∧
  files w2 = <["./life.txt" := board w1 r c]> (files w) ∧
  board w1 r c
    = grid_str (sample_grid w (rng_pos w + Z.to_nat r * Z.to_nat c)
                  (Z.to_nat r) (Z.to_nat c)) ∧
  rng_pos w2 = (rng_pos w + 2 * (Z.to_nat r * Z.to_nat c))%nat.
Proof.
  intros Hargv Hrun1 Hrun2.
  destruct (main_returns w w1 tt Hrun1) as (prog' & r' & c' & Hargv' & _ & _ & _ & _ & ->).
  rewrite Hargv in Hargv'. injection Hargv' as _ <- <-.
  destruct (main_returns _ w2 tt Hrun2) as (prog2 & r2 & c2 & Hargv2 & _ & _ & _ & _ & ->).
  change (sys_argv w = [prog2; PyInt r2; PyInt c2]) in Hargv2.
  rewrite Hargv in Hargv2. injection Hargv2 as _ <- <-.
  split; [reflexivity |]. split; [| split].
  - cbn [files set_files set_disk_free set_rng_pos]. apply insert_insert_eq.
  - reflexivity.
  - unfold cells. cbn [rng_pos set_files set_disk_free set_rng_pos]. lia.
Qed.

Lemma main_twice_witness :
  main (patched 2 3 1000) = (Return tt, (main (patched 2 3 1000)).2) ∧
  main (main (patched 2 3 1000)).2
    = (Return tt, (main (main (patched 2 3 1000)).2).2) ∧
  rng_pos (main (main (patched 2 3 1000)).2).2 = 12%nat ∧
  files (main (main (patched 2 3 1000)).2).2 !! "notes.txt" = Some "keep".
Proof.
  assert (H1 : main (patched 2 3 1000) = (Return tt, (main (patched 2 3 1000)).2))
    by (vm_compute; reflexivity).
  assert (H2 : main (main (patched 2 3 1000)).2
               = (Return tt, (main (main (patched 2 3 1000)).2).2))
    by (vm_compute; reflexivity).
  split; [exact H1 |]. split; [exact H2 |].
  destruct (main_twice (patched 2 3 1000) _ _ (PyStr "./generate") 2 3 eq_refl H1 H2)
    as (_ & Hfiles & _ & Hpos).
  split; [exact Hpos |]. rewrite Hfiles. by rewrite lookup_insert_ne.
Defined.

(** ** Reading the file back (line 31) *)

Lemma chars_join (row : list string) :
  Forall (fun c => c = ALIVE ∨ c = DEAD) row → chars (join "" row) = row.
Proof.
  induction 1 as [| c row Hc Hrow IH]; [done |].
  rewrite join_empty_cons.
  destruct Hc; subst; unfold ALIVE, DEAD; rewrite append_cons, append_nil; cbn;
    by rewrite IH.
Qed.

(** X12.  The text of a grid with at least one row determines the grid:
    cutting it at the newlines and each line into characters gives the
    grid back, so two such grids with the same text are equal.  A grid
    with no rows is written as the empty text, which reads back as one
    empty row. *)
Theorem grid_str_round_trip (rows cols : nat) (grid : list (list string)) :
  (well_formed rows cols grid → grid ≠ [] →
   read_grid (grid_str grid) = grid ∧
   ∀ (rows' cols' : nat) (grid' : list (list string)),
     well_formed rows' cols' grid' → grid' ≠ [] →
     grid_str grid' = grid_str grid → grid' = grid) ∧
  read_grid (grid_str []) = [[]].
Proof.
  assert (Hread : ∀ (n m : nat) (g : list (list string)),
             well_formed n m g → g ≠ [] → read_grid (grid_str g) = g).
  { intros n m g [Hlen Hall] Hne. unfold read_grid, grid_str.
    change newline with (String nl "").
    rewrite split_join;
      [| by destruct g | by apply (rows_without_newline m)].
    rewrite List.map_map. rewrite <- (List.map_id g) at 2.
    apply List.map_ext_in. intros row Hin.
    apply chars_join.
    apply (proj1 (List.Forall_forall _ _) Hall row Hin). }
  split; [| reflexivity].
  intros Hwf Hne. split; [by apply (Hread rows cols) |].
  intros rows' cols' grid' Hwf' Hne' Heq.
  rewrite <- (Hread rows' cols' grid' Hwf' Hne'), Heq.
  by apply (Hread rows cols).
Qed.

Lemma grid_str_round_trip_witness :
  read_grid (grid_str [[ALIVE; DEAD]; [DEAD; DEAD]]) = [[ALIVE; DEAD]; [DEAD; DEAD]].
Proof.
  apply (proj1 (grid_str_round_trip 2 2 [[ALIVE; DEAD]; [DEAD; DEAD]]));
    [by_cases | discriminate].
Defined.
